(** * train.py: the training control loop, checkpointing and test-mode reduction

    A shallow embedding of [main] of [train.py].  Python integers are [Z],
    Python floats are IEEE binary64 values ([PrimFloat.float]), so that
    [float('inf')], NaN and the two separate comparisons [<] and [>=] of the
    early-stopping code behave as they do in Python.

    The network, the optimizer, the datasets and the data loaders are
    external collaborators.  What the control flow of [main] observes of them
    is collected in a [World]: the sizes of the datasets, the scalar
    [loss.item()] of every batch a loader yields, and the score vectors the
    network returns in test mode.  Every theorem quantifies over all worlds.

    A world stands for a run in which the datasets have been read.  [main]
    builds the loaders before it enters the training loop or test mode
    (lines 57-60 and 166), and the loader constructor refuses a batch size
    that is not positive: inside the loop the denominators
    [len // batch_size + 1] are at least 1 and no division raises.

    The network computes in single precision: the scores of test mode and
    the predictions made of them are IEEE binary32 values ([float32]).

    The checkpoint directory [config.ckpt_path] is modelled by [FS]; the
    metrics sink and the console by an event log. *)

From Stdlib Require Import ZArith List Bool Lia Floats Sorted.
Import ListNotations.
Open Scope Z_scope.

(** ** Python values and builtins used by [main] *)

Module Py.

(** [a < b] and [a >= b] on floats; both are [False] when an operand is NaN. *)
Definition lt (a b : float) : bool := PrimFloat.ltb a b.
Definition ge (a b : float) : bool := PrimFloat.leb b a.

(** Conversion of an integer operand in mixed arithmetic (exact below 2^53). *)
Definition float_of_int (z : Z) : float :=
  if z <? 0 then PrimFloat.opp (PrimFloat.of_uint63 (Uint63.of_Z (- z)))
  else PrimFloat.of_uint63 (Uint63.of_Z z).

(** [sum(l)]: left to right, from 0.  (From Python 3.12 on, [sum] carries a
    compensation term that can change the last bit of an inexact sum; the
    sums evaluated below are exact.) *)
Definition sum (l : list float) : float :=
  fold_left PrimFloat.add l PrimFloat.zero.

(** [x / d] with a float numerator and an integer denominator. *)
Definition truediv (x : float) (d : Z) : float :=
  PrimFloat.div x (float_of_int d).

(** [range(a, b)]. *)
Definition range (a b : Z) : list Z :=
  map (fun k => a + Z.of_nat k) (seq 0 (Z.to_nat (b - a))).

(** [enumerate(l, start)]. *)
Fixpoint enumerate {A : Type} (start : Z) (l : list A) : list (Z * A) :=
  match l with
  | [] => []
  | x :: l' => (start, x) :: enumerate (start + 1) l'
  end.

End Py.

(** ** Configuration, world, file system, events *)

(** The options of the argument parser that [main] reads.  [img_path], the
    CSV paths, [multi_gpu], [gpu_ids] and [save_fig] only reach the external
    collaborators (or nothing at all) and are left out; [ckpt_path] is the
    directory that [FS] describes. *)
Record Config := {
  train : bool;
  test : bool;
  train_batch_size : Z;
  val_batch_size : Z;
  test_batch_size : Z;
  num_workers : Z;
  epochs : Z;
  warm_start : bool;
  warm_start_epoch : Z;
  early_stopping_patience : Z
}.

(** IEEE binary32, the element type of the tensors of the network: the
    operations of the standard library's specification of floating-point
    numbers at precision 24 and maximal exponent 128, rounding to nearest,
    ties to even. *)
Definition float32 : Type := spec_float.

Module F32.

Definition prec : Z := 24.
Definition emax : Z := 128.

(** [m * 2^e], rounded. *)
Definition make (m e : Z) : float32 := binary_normalize prec emax m e false.

Definition zero : float32 := S754_zero false.
Definition of_int (z : Z) : float32 := make z 0.
Definition add (x y : float32) : float32 := SFadd prec emax x y.
Definition sub (x y : float32) : float32 := SFsub prec emax x y.
Definition mul (x y : float32) : float32 := SFmul prec emax x y.
Definition sqrt (x : float32) : float32 := SFsqrt prec emax x.

End F32.

Record World := {
  (** [len(trainset)], [len(valset)] *)
  len_trainset : Z;
  len_valset : Z;
  (** [loss.item()] of each batch of [train_loader] in the pass of an epoch *)
  train_loader : Z -> list float;
  (** [val_loss.item()] of each batch of [val_loader] in the validation pass
      run after step [i] of an epoch (lines 88-94) *)
  step_val_loader : Z -> Z -> list float;
  (** the same for the pass at the end of an epoch (lines 117-123) *)
  epoch_val_loader : Z -> list float;
  (** [model(image)] for each batch of [test_loader], flattened *)
  test_loader : list (list float32)
}.

(** Files of the checkpoint directory: ['epoch-%d.pth'] is what a warm start
    loads, ['epoch-%d-%f.pth'] is what the training loop saves. *)
Inductive FileName :=
| WarmStartFile (epoch : Z)
| CheckpointFile (label : Z) (val_loss : float).

Record FS := {
  dir_exists : bool;
  files : list FileName
}.

Definition is_warm_start_file (n : Z) (f : FileName) : bool :=
  match f with
  | WarmStartFile m => m =? n
  | CheckpointFile _ _ => false
  end.

Definition file_exists_warm (n : Z) (d : FS) : bool :=
  dir_exists d && existsb (is_warm_start_file n) (files d).

Inductive Exn :=
| FileNotFoundError (f : FileName)
| RuntimeError_view (numel : nat)
| ValueError.

Inductive Event :=
| PrintLoaded (n : Z)                                      (* line 37 *)
| PrintStep (epoch1 total step1 steps : Z) (loss : float)  (* line 83 *)
| AddScalar (loss : float) (global_step : Z)               (* line 84 *)
| PrintValLoss (label : Z) (avg_val_loss : float)          (* lines 97, 126 *)
| PrintSaving                                              (* lines 101, 135 *)
| PrintDone                                                (* lines 106, 138 *)
| PrintTrainLoss (epoch1 : Z) (avg_loss : float)           (* line 112 *)
| AddScalars (train_loss val_loss : float) (step : Z)      (* line 127 *)
| PrintTerminated (patience : Z)                           (* line 144 *)
| PrintCompleted.                                          (* line 147 *)

(** The local variables of [main], the checkpoint directory and the log
    (most recent event first). *)
Record State := {
  count : Z;
  init_val_loss : float;
  train_losses : list float;
  val_losses : list float;
  batch_losses : list float;
  mean_preds : list float32;
  std_preds : list float32;
  fs : FS;
  log : list Event
}.

Definition set_count (c : Z) (s : State) : State :=
  {| count := c; init_val_loss := init_val_loss s;
     train_losses := train_losses s; val_losses := val_losses s;
     batch_losses := batch_losses s; mean_preds := mean_preds s;
     std_preds := std_preds s; fs := fs s; log := log s |}.

Definition set_init_val_loss (x : float) (s : State) : State :=
  {| count := count s; init_val_loss := x;
     train_losses := train_losses s; val_losses := val_losses s;
     batch_losses := batch_losses s; mean_preds := mean_preds s;
     std_preds := std_preds s; fs := fs s; log := log s |}.

Definition set_train_losses (l : list float) (s : State) : State :=
  {| count := count s; init_val_loss := init_val_loss s;
     train_losses := l; val_losses := val_losses s;
     batch_losses := batch_losses s; mean_preds := mean_preds s;
     std_preds := std_preds s; fs := fs s; log := log s |}.

Definition set_val_losses (l : list float) (s : State) : State :=
  {| count := count s; init_val_loss := init_val_loss s;
     train_losses := train_losses s; val_losses := l;
     batch_losses := batch_losses s; mean_preds := mean_preds s;
     std_preds := std_preds s; fs := fs s; log := log s |}.

Definition set_batch_losses (l : list float) (s : State) : State :=
  {| count := count s; init_val_loss := init_val_loss s;
     train_losses := train_losses s; val_losses := val_losses s;
     batch_losses := l; mean_preds := mean_preds s;
     std_preds := std_preds s; fs := fs s; log := log s |}.

Definition set_preds (m sd : list float32) (s : State) : State :=
  {| count := count s; init_val_loss := init_val_loss s;
     train_losses := train_losses s; val_losses := val_losses s;
     batch_losses := batch_losses s; mean_preds := m;
     std_preds := sd; fs := fs s; log := log s |}.

Definition set_fs (d : FS) (s : State) : State :=
  {| count := count s; init_val_loss := init_val_loss s;
     train_losses := train_losses s; val_losses := val_losses s;
     batch_losses := batch_losses s; mean_preds := mean_preds s;
     std_preds := std_preds s; fs := d; log := log s |}.

Definition emit (e : Event) (s : State) : State :=
  {| count := count s; init_val_loss := init_val_loss s;
     train_losses := train_losses s; val_losses := val_losses s;
     batch_losses := batch_losses s; mean_preds := mean_preds s;
     std_preds := std_preds s; fs := fs s; log := e :: log s |}.

(** [if not os.path.exists(config.ckpt_path): os.makedirs(config.ckpt_path)] *)
Definition ensure_ckpt_dir (s : State) : State :=
  if dir_exists (fs s) then s
  else set_fs {| dir_exists := true; files := files (fs s) |} s.

(** [torch.save(model.state_dict(), os.path.join(config.ckpt_path, name))]:
    opening the file for writing fails when the directory does not exist
    ([FileNotFoundError]; recent versions of torch raise a [RuntimeError]
    for the missing parent directory instead). *)
Definition torch_save (name : FileName) (s : State) : option State :=
  if dir_exists (fs s)
  then Some (set_fs {| dir_exists := true; files := name :: files (fs s) |} s)
  else None.

(** What a block of [main] hands back to the enclosing loop. *)
Inductive Flow :=
| Continue
| Break
| Raise (e : Exn).

(** ** The training loop (lines 62-147) *)

Section Training.

Variable config : Config.
Variable world : World.

(** [len(trainset) // config.train_batch_size + 1] *)
Definition train_denominator : Z :=
  len_trainset world / train_batch_size config + 1.

(** [len(valset) // config.val_batch_size + 1] *)
Definition val_denominator : Z :=
  len_valset world / val_batch_size config + 1.

(** Lines 87-95 and 116-124: one validation pass reduced to a scalar. *)
Definition avg_val_loss (batch_val_losses : list float) : float :=
  Py.truediv (Py.sum batch_val_losses) val_denominator.

(** Lines 87-106: the validation run inside the step loop. *)
Definition step_validation (epoch i : Z) (s : State) : State * option Exn :=
  let avg := avg_val_loss (step_val_loader world epoch i) in
  let s := set_val_losses (val_losses s ++ [avg]) s in
  let s := emit (PrintValLoss ((i + 1) / 6) avg) s in
  if Py.lt avg (init_val_loss s) then
    let s := set_init_val_loss avg s in
    let s := emit PrintSaving s in
    let s := ensure_ckpt_dir s in
    match torch_save (CheckpointFile ((i + 1) / 6) avg) s with
    | Some s' => (emit PrintDone s', None)
    | None => (s, Some (FileNotFoundError (CheckpointFile ((i + 1) / 6) avg)))
    end
  else (s, None).

(** Lines 70-106: one training step, [i] counted from 0, [loss] its
    [loss.item()]. *)
Definition train_step (epoch i : Z) (loss : float) (s : State)
  : State * option Exn :=
  let s := set_batch_losses (batch_losses s ++ [loss]) s in
  let s := emit (PrintStep (epoch + 1) (epochs config) (i + 1)
                           train_denominator loss) s in
  let s := emit (AddScalar loss (i + epoch * train_denominator)) s in
  if (i + 1) mod 4 =? 0 then step_validation epoch i s
  else (s, None).

(** Line 69: [for i, data in enumerate(train_loader)]. *)
Fixpoint step_loop (epoch : Z) (batches : list (Z * float)) (s : State)
  : State * option Exn :=
  match batches with
  | [] => (s, None)
  | (i, loss) :: rest =>
      match train_step epoch i loss s with
      | (s', None) => step_loop epoch rest s'
      | (s', Some e) => (s', Some e)
      end
  end.

(** Lines 132-145: the early-stopping policy applied to the validation
    loss of the epoch.  Neither branch is taken when the two floats do not
    compare. *)
Definition early_stopping (avg : float) (s : State) : State * Flow :=
  if Py.lt avg (init_val_loss s) then
    let s := set_init_val_loss avg s in
    let s := emit PrintSaving s in
    let s := ensure_ckpt_dir s in
    let s := emit PrintDone s in
    (set_count 0 s, Continue)
  else if Py.ge avg (init_val_loss s) then
    let s := set_count (count s + 1) s in
    if count s =? early_stopping_patience config
    then (emit (PrintTerminated (early_stopping_patience config)) s, Break)
    else (s, Continue)
  else (s, Continue).

(** Lines 109-130: the end of an epoch up to and including the save. *)
Definition epoch_end (epoch : Z) (s : State) : State * float * option Exn :=
  let avg_loss := Py.truediv (Py.sum (batch_losses s)) train_denominator in
  let s := set_train_losses (train_losses s ++ [avg_loss]) s in
  let s := emit (PrintTrainLoss (epoch + 1) avg_loss) s in
  let avg := avg_val_loss (epoch_val_loader world epoch) in
  let s := set_val_losses (val_losses s ++ [avg]) s in
  let s := emit (PrintValLoss (epoch + 1) avg) s in
  let s := emit (AddScalars avg_loss avg (epoch + 1)) s in
  match torch_save (CheckpointFile (epoch + 1) avg) s with
  | Some s' => (s', avg, None)
  | None => (s, avg, Some (FileNotFoundError (CheckpointFile (epoch + 1) avg)))
  end.

(** Lines 67-145: the body of the epoch loop. *)
Definition epoch_body (epoch : Z) (s : State) : State * Flow :=
  let s := set_batch_losses [] s in
  match step_loop epoch (Py.enumerate 0 (train_loader world epoch)) s with
  | (s, Some e) => (s, Raise e)
  | (s, None) =>
      match epoch_end epoch s with
      | (s, _, Some e) => (s, Raise e)
      | (s, avg, None) => early_stopping avg s
      end
  end.

(** Line 66: the loop over the epochs; [Continue] is the range exhausted. *)
Fixpoint epoch_loop (range : list Z) (s : State) : State * Flow :=
  match range with
  | [] => (s, Continue)
  | epoch :: rest =>
      match epoch_body epoch s with
      | (s', Continue) => epoch_loop rest s'
      | (s', Break) => (s', Break)
      | (s', Raise e) => (s', Raise e)
      end
  end.

(** Lines 62-65. *)
Definition training_init (s : State) : State :=
  let s := set_count 0 s in
  let s := set_init_val_loss PrimFloat.infinity s in
  let s := set_train_losses [] s in
  set_val_losses [] s.

(** Lines 62-147. *)
Definition training (s : State) : State * Flow :=
  let s := training_init s in
  match epoch_loop (Py.range (warm_start_epoch config) (epochs config)) s with
  | (s', Raise e) => (s', Raise e)
  | (s', flow) => (emit PrintCompleted s', flow)
  end.

End Training.

(** ** Test mode (lines 161-181) *)

(** The arithmetic of the tensor elements the reduction is computed with.
    [t_zero] is the Python float [0.0] both accumulators start from,
    [t_of_int] the promotion of the integer index in [i * elem] and
    [j - predicted_mean], [t_square] is [** 2] and [t_sqrt] is [** 0.5]. *)
Class TensorArith (T : Type) := {
  t_zero : T;
  t_of_int : Z -> T;
  t_add : T -> T -> T;
  t_sub : T -> T -> T;
  t_mul : T -> T -> T;
  t_square : T -> T;
  t_sqrt : T -> T
}.

(** Double precision, for a network switched to [float64]. *)
#[export] Instance float_arith : TensorArith float := {
  t_zero := PrimFloat.zero;
  t_of_int := Py.float_of_int;
  t_add := PrimFloat.add;
  t_sub := PrimFloat.sub;
  t_mul := PrimFloat.mul;
  t_square := fun x => PrimFloat.mul x x;
  t_sqrt := PrimFloat.sqrt
}.

(** Single precision, the default of the network: what test mode computes
    with. *)
#[export] Instance float32_arith : TensorArith float32 := {
  t_zero := F32.zero;
  t_of_int := F32.of_int;
  t_add := F32.add;
  t_sub := F32.sub;
  t_mul := F32.mul;
  t_square := fun x => F32.mul x x;
  t_sqrt := F32.sqrt
}.

Section Reduction.

Context {T : Type} `{TensorArith T}.

(** [output.view(10, 1)]: defined only for a tensor of 10 elements. *)
Definition view_10_1 (output : list T) : option (list T) :=
  if (length output =? 10)%nat then Some output else None.

(** Lines 175-176. *)
Definition mean_loop (output : list T) (predicted_mean : T) : T :=
  fold_left (fun acc ie => t_add acc (t_mul (t_of_int (fst ie)) (snd ie)))
            (Py.enumerate 1 output) predicted_mean.

(** Lines 177-178. *)
Definition std_loop (output : list T) (predicted_mean predicted_std : T) : T :=
  fold_left (fun acc je =>
               t_add acc (t_mul (snd je)
                                (t_square (t_sub (t_of_int (fst je)) predicted_mean))))
            (Py.enumerate 1 output) predicted_std.

(** Lines 174-179 for one sample: [(predicted_mean, predicted_std)]. *)
Definition predict (output : list T) : T * T :=
  let predicted_mean := mean_loop output t_zero in
  let predicted_std := std_loop output predicted_mean t_zero in
  (predicted_mean, t_sqrt predicted_std).

End Reduction.

(** Lines 170-181. *)
Fixpoint test_loop (outputs : list (list float32)) (s : State)
  : State * option Exn :=
  match outputs with
  | [] => (s, None)
  | output :: rest =>
      match view_10_1 output with
      | None => (s, Some (RuntimeError_view (length output)))
      | Some output =>
          let (predicted_mean, predicted_std) := predict output in
          test_loop rest (set_preds (mean_preds s ++ [predicted_mean])
                                    (std_preds s ++ [predicted_std]) s)
      end
  end.

Definition testing (world : World) (s : State) : State * option Exn :=
  test_loop (test_loader world) (set_preds [] [] s).

(** ** [main] *)

Definition initial_state (d : FS) : State :=
  {| count := 0; init_val_loss := PrimFloat.infinity;
     train_losses := []; val_losses := []; batch_losses := [];
     mean_preds := []; std_preds := []; fs := d; log := [] |}.

(** Lines 35-37: [torch.load] of ['epoch-%d.pth' % config.warm_start_epoch]. *)
Definition load_warm_start (config : Config) (s : State) : State * option Exn :=
  if warm_start config then
    if file_exists_warm (warm_start_epoch config) (fs s)
    then (emit (PrintLoaded (warm_start_epoch config)) s, None)
    else (s, Some (FileNotFoundError (WarmStartFile (warm_start_epoch config))))
  else (s, None).

(** [torch.utils.data.DataLoader(dataset, batch_size=..., shuffle=...,
    num_workers=...)] (lines 57-60 and 166): the constructor raises a
    [ValueError] for a negative number of workers, for an empty data set
    that it is to shuffle, and for a batch size that is not positive. *)
Definition DataLoader_raises (len batch_size : Z) (shuffle : bool)
           (workers : Z) : bool :=
  (workers <? 0) || (shuffle && (len <=? 0)) || (batch_size <=? 0).

(** Lines 57-60: the loaders of the training set (shuffled) and of the
    validation set. *)
Definition training_loaders_raise (config : Config) (world : World) : bool :=
  DataLoader_raises (len_trainset world) (train_batch_size config) true
                    (num_workers config)
  || DataLoader_raises (len_valset world) (val_batch_size config) false
                       (num_workers config).

(** Line 166: the loader of the test set, not shuffled, so that the size of
    the set plays no part. *)
Definition test_loader_raises (config : Config) : bool :=
  DataLoader_raises 0 (test_batch_size config) false (num_workers config).

(** [main(config)] started on the checkpoint directory [d]; the exception, if
    any, is the one that ends the process. *)
Definition main (config : Config) (world : World) (d : FS) : State * option Exn :=
  match load_warm_start config (initial_state d) with
  | (s, Some e) => (s, Some e)
  | (s, None) =>
      match (if train config then
               if training_loaders_raise config world
               then (s, Raise ValueError)
               else training config world s
             else (s, Continue)) with
      | (s, Raise e) => (s, Some e)
      | (s, _) =>
          if test config then
            if test_loader_raises config then (s, Some ValueError)
            else testing world s
          else (s, None)
      end
  end.

(** ** Observations on a state *)

(** The epochs whose training pass has been completed (line 111 appends one
    entry to [train_losses] per epoch). *)
Definition epochs_executed (s : State) : Z := Z.of_nat (length (train_losses s)).

Definition is_step_event (e : Event) : bool :=
  match e with
  | PrintStep _ _ _ _ _ | AddScalar _ _ => true
  | _ => false
  end.

Definition saved (label : Z) (loss : float) (s : State) : Prop :=
  In (CheckpointFile label loss) (files (fs s)).

(** The verdict of one validation check against the best loss so far, as the
    two tests [avg_val_loss < init_val_loss] and
    [avg_val_loss >= init_val_loss] of lines 132 and 141 decide it. *)
Inductive Verdict :=
| Improved
| NotImproved
| Unordered.

Definition verdict (avg best : float) : Verdict :=
  if Py.lt avg best then Improved
  else if Py.ge avg best then NotImproved
  else Unordered.

(** The best loss after a check: replaced only by a strictly smaller one. *)
Definition running_min (best avg : float) : float :=
  if Py.lt avg best then avg else best.

(** [new] is [old] or strictly below it. *)
Definition non_increasing (old new : float) : Prop :=
  new = old \/ Py.lt new old = true.

(** The number of batches a loader yields over [m] samples with batch size
    [b] (the last batch may be short). *)
Definition loader_len (m b : Z) : Z := (m + b - 1) / b.

(** The lists of a world have the lengths the loaders give them. *)
Definition loaders_consistent (config : Config) (world : World) : Prop :=
  (forall epoch,
      Z.of_nat (length (train_loader world epoch))
      = loader_len (len_trainset world) (train_batch_size config))
  /\ (forall epoch i,
         Z.of_nat (length (step_val_loader world epoch i))
         = loader_len (len_valset world) (val_batch_size config))
  /\ (forall epoch,
         Z.of_nat (length (epoch_val_loader world epoch))
         = loader_len (len_valset world) (val_batch_size config)).

Section TrainingTrace.

Variable config : Config.
Variable world : World.

(** The best loss after the validation of step [i], if there is one. *)
Definition step_best (epoch i : Z) (best : float) : float :=
  if (i + 1) mod 4 =? 0
  then running_min best (avg_val_loss config world (step_val_loader world epoch i))
  else best.

(** The best loss when the training pass of an epoch is over. *)
Definition best_after_steps (epoch : Z) (batches : list (Z * float))
           (best : float) : float :=
  fold_left (fun b il => step_best epoch (fst il) b) batches best.

Definition best_before_epoch_end (epoch : Z) (best : float) : float :=
  best_after_steps epoch (Py.enumerate 0 (train_loader world epoch)) best.

(** The validation loss of the end of an epoch. *)
Definition epoch_val_loss (epoch : Z) : float :=
  avg_val_loss config world (epoch_val_loader world epoch).

(** The verdicts of the epoch-end checks of the epochs of [range], each
    against the best loss recorded before it (by the step validations and
    the epoch-end checks alike), when nothing stops the loop. *)
Fixpoint verdicts (range : list Z) (best : float) : list Verdict :=
  match range with
  | [] => []
  | epoch :: rest =>
      let b := best_before_epoch_end epoch best in
      verdict (epoch_val_loss epoch) b
      :: verdicts rest (running_min b (epoch_val_loss epoch))
  end.

End TrainingTrace.

(** A patience counter run over a list of verdicts: the number of verdicts
    consumed and whether the counter reached [P]. *)
Fixpoint patience_run (P c : Z) (vs : list Verdict) : nat * bool :=
  match vs with
  | [] => (O, false)
  | Improved :: rest =>
      let (n, b) := patience_run P 0 rest in (S n, b)
  | NotImproved :: rest =>
      if c + 1 =? P then (1%nat, true)
      else let (n, b) := patience_run P (c + 1) rest in (S n, b)
  | Unordered :: rest =>
      let (n, b) := patience_run P c rest in (S n, b)
  end.

Definition is_not_improved (v : Verdict) : bool :=
  match v with NotImproved => true | _ => false end.

(** The checks of [w] with a loss [>=] the best, when none of [w] improves. *)
Definition failures (w : list Verdict) : Z :=
  Z.of_nat (length (filter is_not_improved w)).

(** ** The counter, the windows of checks, lists that only grow *)

(** The counter and the flow after an epoch-end check of verdict [v]. *)
Definition next_count (v : Verdict) (c : Z) : Z :=
  match v with
  | Improved => 0
  | NotImproved => c + 1
  | Unordered => c
  end.

Definition next_flow (config : Config) (v : Verdict) (c : Z) : Flow :=
  match v with
  | NotImproved =>
      if c + 1 =? early_stopping_patience config then Break else Continue
  | _ => Continue
  end.

(** The state when the training pass of [epoch] is over. *)
Definition after_steps (config : Config) (world : World) (epoch : Z)
           (s : State) : State :=
  fst (step_loop config world epoch
                 (Py.enumerate 0 (train_loader world epoch))
                 (set_batch_losses [] s)).

(** [P] epoch-end checks with a loss [>=] the best so far, in a stretch [w]
    of consecutive checks none of which improves, after the checks [pre]. *)
Definition patience_window (P : Z) (vs pre w : list Verdict) : Prop :=
  (exists rest, vs = pre ++ w ++ rest)
  /\ ~ In Improved w
  /\ failures w = P.

(** [P] consecutive epoch-end checks none of which improves. *)
Definition consecutive_non_improving (P : Z) (vs : list Verdict) : Prop :=
  exists pre w rest,
    vs = pre ++ w ++ rest
    /\ Z.of_nat (length w) = P
    /\ Forall (fun v => v <> Improved) w.

(** [new] is [old] with entries added in front: nothing is removed. *)
Definition extends {A : Type} (old new : list A) : Prop :=
  exists l, new = l ++ old.

(** ** The reduction of test mode, as the specification words it *)

Section ReductionSpec.

Context {T : Type} `{TensorArith T}.

(** The sum of [f 1], ..., [f n], added in this order from [0.0]. *)
Fixpoint sigma (n : nat) (f : Z -> T) : T :=
  match n with
  | O => t_zero
  | S k => t_add (sigma k f) (f (Z.of_nat (S k)))
  end.

(** [score[i]], the scores counted from 1. *)
Definition score (output : list T) (i : Z) : T :=
  nth (Z.to_nat (i - 1)) output t_zero.

(** The weighted mean and the weighted standard deviation in the words of
    the specification. *)
Definition weighted_mean (output : list T) : T :=
  sigma 10 (fun i => t_mul (t_of_int i) (score output i)).

Definition weighted_std (output : list T) : T :=
  t_sqrt (sigma 10 (fun i =>
                      t_mul (score output i)
                            (t_square (t_sub (t_of_int i)
                                             (weighted_mean output))))).

End ReductionSpec.

(** ** Example runs *)

(** The defaults of the argument parser, with the epoch count, the warm-start
    epoch and the patience given. *)
Definition example_config (E W P : Z) : Config :=
  {| train := true; test := false;
     train_batch_size := 156; val_batch_size := 100;
     test_batch_size := 1; num_workers := 2;
     epochs := E; warm_start := false; warm_start_epoch := W;
     early_stopping_patience := P |}.

(** 300 training samples (2 batches, so no step ever reaches a validation)
    and 50 validation samples (1 batch); [ev] is the validation loss of the
    end of each epoch. *)
Definition small_world (ev : Z -> float) : World :=
  {| len_trainset := 300; len_valset := 50;
     train_loader := fun _ => [1%float; 1%float];
     step_val_loader := fun _ _ => [1%float];
     epoch_val_loader := fun epoch => [ev epoch];
     test_loader := [] |}.

(** 700 training samples (5 batches: the fourth step runs a validation, of
    loss [sv epoch]) and 50 validation samples. *)
Definition large_world (sv ev : Z -> float) : World :=
  {| len_trainset := 700; len_valset := 50;
     train_loader := fun _ => [1%float; 1%float; 1%float; 1%float; 1%float];
     step_val_loader := fun epoch _ => [sv epoch];
     epoch_val_loader := fun epoch => [ev epoch];
     test_loader := [] |}.

(** Validation loss 0.5 at the end of the first epoch, 0.75 afterwards. *)
Definition first_half_then_worse (epoch : Z) : float :=
  if epoch =? 0 then 0.5%float else 0.75%float.

Definition no_dir : FS := {| dir_exists := false; files := [] |}.
Definition empty_dir : FS := {| dir_exists := true; files := [] |}.

(** Step-validation losses 1, 0.75 and 0.25 of three epochs. *)
Definition step_losses (epoch : Z) : float :=
  if epoch =? 0 then 1%float
  else if epoch =? 1 then 0.75%float else 0.25%float.

(** A configuration that only fixes the validation batch size, and a world
    that only fixes the validation set: its size and the losses of its
    batches. *)
Definition val_config (batch_size : Z) : Config :=
  {| train := true; test := false;
     train_batch_size := 156; val_batch_size := batch_size;
     test_batch_size := 1; num_workers := 2;
     epochs := 1; warm_start := false; warm_start_epoch := 0;
     early_stopping_patience := 10 |}.

Definition val_world (size : Z) (losses : list float) : World :=
  {| len_trainset := 300; len_valset := size;
     train_loader := fun _ => [1%float; 1%float];
     step_val_loader := fun _ _ => losses;
     epoch_val_loader := fun _ => losses;
     test_loader := [] |}.

(** A warm start from epoch [N]. *)
Definition warm_config (N : Z) : Config :=
  {| train := true; test := false;
     train_batch_size := 156; val_batch_size := 100;
     test_batch_size := 1; num_workers := 2;
     epochs := 10; warm_start := true; warm_start_epoch := N;
     early_stopping_patience := 10 |}.

(** ** Further observations on a run *)

(** [x != x]: the float is NaN. *)
Definition is_nan (x : float) : bool := negb (PrimFloat.eqb x x).

(** The best loss is the running minimum, from [+infinity], of every
    validation loss recorded in [val_losses]. *)
Definition tracks_minimum (s : State) : Prop :=
  init_val_loss s = fold_left running_min (val_losses s) PrimFloat.infinity.

(** The epochs whose training pass a run has completed, in order. *)
Definition epochs_run (config : Config) (s : State) : list Z :=
  firstn (length (train_losses s))
         (Py.range (warm_start_epoch config) (epochs config)).

(** What line 109 makes of the batches of one epoch. *)
Definition epoch_train_loss (config : Config) (world : World) (epoch : Z)
  : float :=
  Py.truediv (Py.sum (train_loader world epoch)) (train_denominator config world).

(** The steps of an epoch that run a validation, counted from 0. *)
Definition validation_steps (world : World) (epoch : Z) : list Z :=
  filter (fun i => (i + 1) mod 4 =? 0)
         (map fst (Py.enumerate 0 (train_loader world epoch))).

(** The validation loss that step [i] records, if it records one. *)
Definition step_record (config : Config) (world : World) (epoch i : Z)
  : list float :=
  if (i + 1) mod 4 =? 0
  then [avg_val_loss config world (step_val_loader world epoch i)]
  else [].

(** The validation losses one epoch records, in the order it records them. *)
Definition epoch_validations (config : Config) (world : World) (epoch : Z)
  : list float :=
  map (fun i => avg_val_loss config world (step_val_loader world epoch i))
      (validation_steps world epoch)
  ++ [epoch_val_loss config world epoch].

(** The global steps of the [add_scalar] calls of a log, most recent first. *)
Definition scalar_steps (l : list Event) : list Z :=
  flat_map (fun e => match e with AddScalar _ g => [g] | _ => [] end) l.

(** The step and the total that the [print] calls of line 83 show. *)
Definition printed_step_in_range (e : Event) : Prop :=
  match e with
  | PrintStep _ _ step1 steps _ => 1 <= step1 <= steps
  | _ => True
  end.

Definition is_checkpoint_file (f : FileName) : bool :=
  match f with
  | CheckpointFile _ _ => true
  | WarmStartFile _ => false
  end.

(** [new] is [old] with files of the form ['epoch-%d-%f.pth'] added. *)
Definition checkpoints_added (old new : list FileName) : Prop :=
  exists added,
    new = added ++ old /\ forallb is_checkpoint_file added = true.

(** The epochs of [range] go up one by one or faster, from [e0] at least. *)
Fixpoint ascending_from (e0 : Z) (range : list Z) : Prop :=
  match range with
  | [] => True
  | epoch :: rest => e0 <= epoch /\ ascending_from (epoch + 1) rest
  end.

(** The global steps logged so far go strictly up in time and stay below
    [bound]. *)
Definition steps_below (bound : Z) (s : State) : Prop :=
  StronglySorted (fun later earlier => earlier < later) (scalar_steps (log s))
  /\ Forall (fun g => g < bound) (scalar_steps (log s)).

(** A batch of 10 scores, 1/8 on each of the first 8 ranks, for the examples
    of test mode. *)
Definition uniform_scores : list float32 :=
  [F32.make 1 (-3); F32.make 1 (-3); F32.make 1 (-3); F32.make 1 (-3);
   F32.make 1 (-3); F32.make 1 (-3); F32.make 1 (-3); F32.make 1 (-3);
   F32.zero; F32.zero].

(** The scores [1, 0, ..., 0] in single precision. *)
Definition first_rank_scores : list float32 :=
  [F32.of_int 1; F32.zero; F32.zero; F32.zero; F32.zero;
   F32.zero; F32.zero; F32.zero; F32.zero; F32.zero].

(** Training and test mode together: 5 epochs, patience 1. *)
Definition both_modes_config : Config :=
  {| train := true; test := true;
     train_batch_size := 156; val_batch_size := 100;
     test_batch_size := 1; num_workers := 2;
     epochs := 5; warm_start := false; warm_start_epoch := 0;
     early_stopping_patience := 1 |}.

(** The small world with one test batch. *)
Definition test_world : World :=
  {| len_trainset := 300; len_valset := 50;
     train_loader := fun _ => [1%float; 1%float];
     step_val_loader := fun _ _ => [1%float];
     epoch_val_loader := fun epoch => [first_half_then_worse epoch];
     test_loader := [uniform_scores] |}.

(** ** Python floats: the order *)

Lemma SFltb_trans (x y z : spec_float) :
  SFltb x y = true -> SFltb y z = true -> SFltb x z = true.
Proof.
  unfold SFltb.
  destruct x as [sx|sx| |sx mx ex], y as [sy|sy| |sy my ey],
           z as [sz|sz| |sz mz ez]; simpl;
    try destruct sx; try destruct sy; try destruct sz; simpl;
    try congruence; try reflexivity;
    change (Pos.compare_cont Eq) with Pos.compare;
    destruct (Z.compare_spec ex ey), (Z.compare_spec ey ez),
             (Z.compare_spec ex ez); try congruence; try lia; subst;
    destruct (Pos.compare_spec mx my), (Pos.compare_spec my mz),
             (Pos.compare_spec mx mz); simpl; try congruence; try lia.
Qed.

Lemma lt_trans (x y z : float) :
  Py.lt x y = true -> Py.lt y z = true -> Py.lt x z = true.
Proof.
  unfold Py.lt. rewrite !ltb_spec. apply SFltb_trans.
Qed.

Lemma lt_not_ge (x y : float) : Py.lt x y = true -> Py.ge x y = false.
Proof.
  unfold Py.lt, Py.ge. rewrite ltb_spec, leb_spec.
  unfold SFltb, SFleb.
  destruct (Prim2SF x) as [sx|sx| |sx mx ex], (Prim2SF y) as [sy|sy| |sy my ey];
    simpl; try destruct sx; try destruct sy; simpl; try congruence;
    change (Pos.compare_cont Eq) with Pos.compare;
    destruct (Z.compare_spec ex ey), (Z.compare_spec ey ex);
    try congruence; try lia; subst;
    destruct (Pos.compare_spec mx my), (Pos.compare_spec my mx);
    simpl; try congruence; lia.
Qed.

Lemma non_increasing_refl (x : float) : non_increasing x x.
Proof. left; reflexivity. Qed.

Lemma non_increasing_trans (x y z : float) :
  non_increasing x y -> non_increasing y z -> non_increasing x z.
Proof.
  intros [-> | H1] [-> | H2]; unfold non_increasing; auto.
  right. eapply lt_trans; eauto.
Qed.

Lemma running_min_non_increasing (best avg : float) :
  non_increasing best (running_min best avg).
Proof.
  unfold running_min, non_increasing.
  destruct (Py.lt avg best) eqn:E; auto.
Qed.

(** ** One training step and the step loop *)

Section StepFacts.

Variable config : Config.
Variable world : World.

Lemma step_validation_spec (epoch i : Z) (s : State) :
  let avg := avg_val_loss config world (step_val_loader world epoch i) in
  let r := step_validation config world epoch i s in
  snd r = None
  /\ count (fst r) = count s
  /\ train_losses (fst r) = train_losses s
  /\ val_losses (fst r) = val_losses s ++ [avg]
  /\ init_val_loss (fst r) = running_min (init_val_loss s) avg
  /\ (dir_exists (fs s) = true -> dir_exists (fs (fst r)) = true)
  /\ files (fs (fst r))
     = (if Py.lt avg (init_val_loss s)
        then CheckpointFile ((i + 1) / 6) avg :: files (fs s)
        else files (fs s)).
Proof.
  unfold step_validation, running_min; simpl.
  destruct (Py.lt _ (init_val_loss s)) eqn:Hlt; simpl.
  - unfold ensure_ckpt_dir, torch_save; simpl.
    destruct (dir_exists (fs s)) eqn:Hd; simpl; rewrite ?Hd; simpl; auto 10.
  - auto 10.
Qed.

Lemma train_step_spec (epoch i : Z) (loss : float) (s : State) :
  let r := train_step config world epoch i loss s in
  snd r = None
  /\ count (fst r) = count s
  /\ train_losses (fst r) = train_losses s
  /\ init_val_loss (fst r) = step_best config world epoch i (init_val_loss s)
  /\ (dir_exists (fs s) = true -> dir_exists (fs (fst r)) = true).
Proof.
  unfold train_step, step_best.
  destruct ((i + 1) mod 4 =? 0) eqn:Hm; simpl.
  - match goal with
    | |- context [step_validation _ _ ?e ?j ?t] =>
        destruct (step_validation_spec e j t) as (H1 & H2 & H3 & _ & H5 & H6 & _)
    end.
    simpl in *. auto.
  - auto.
Qed.

Lemma step_loop_spec (epoch : Z) (batches : list (Z * float)) :
  forall s,
    let r := step_loop config world epoch batches s in
    snd r = None
    /\ count (fst r) = count s
    /\ train_losses (fst r) = train_losses s
    /\ init_val_loss (fst r)
       = best_after_steps config world epoch batches (init_val_loss s)
    /\ (dir_exists (fs s) = true -> dir_exists (fs (fst r)) = true).
Proof.
  induction batches as [|[i loss] rest IH]; intros s; simpl.
  - auto.
  - destruct (train_step_spec epoch i loss s) as (H1 & H2 & H3 & H4 & H5).
    destruct (train_step config world epoch i loss s) as [s' [e|]] eqn:E;
      simpl in *; [discriminate|].
    destruct (IH s') as (I1 & I2 & I3 & I4 & I5).
    unfold best_after_steps in *; simpl.
    rewrite I2, I3, I4, H2, H3, H4. auto 10.
Qed.

(** ** The end of an epoch *)

Lemma epoch_end_spec (epoch : Z) (s : State) :
  let avg_loss := Py.truediv (Py.sum (batch_losses s))
                             (train_denominator config world) in
  let avg := epoch_val_loss config world epoch in
  let r := epoch_end config world epoch s in
  snd (fst r) = avg
  /\ count (fst (fst r)) = count s
  /\ init_val_loss (fst (fst r)) = init_val_loss s
  /\ train_losses (fst (fst r)) = train_losses s ++ [avg_loss]
  /\ val_losses (fst (fst r)) = val_losses s ++ [avg]
  /\ log (fst (fst r))
     = AddScalars avg_loss avg (epoch + 1)
       :: PrintValLoss (epoch + 1) avg
       :: PrintTrainLoss (epoch + 1) avg_loss :: log s
  /\ (if dir_exists (fs s)
      then snd r = None
           /\ fs (fst (fst r))
              = {| dir_exists := true;
                   files := CheckpointFile (epoch + 1) avg :: files (fs s) |}
      else snd r = Some (FileNotFoundError (CheckpointFile (epoch + 1) avg))
           /\ fs (fst (fst r)) = fs s).
Proof.
  unfold epoch_end, torch_save, epoch_val_loss; simpl.
  destruct (dir_exists (fs s)) eqn:Hd; simpl; rewrite ?Hd; auto 10.
Qed.

Lemma early_stopping_spec (avg : float) (s : State) :
  let v := verdict avg (init_val_loss s) in
  let r := early_stopping config avg s in
  count (fst r) = next_count v (count s)
  /\ snd r = next_flow config v (count s)
  /\ init_val_loss (fst r) = running_min (init_val_loss s) avg
  /\ train_losses (fst r) = train_losses s
  /\ val_losses (fst r) = val_losses s
  /\ files (fs (fst r)) = files (fs s)
  /\ (dir_exists (fs s) = true -> dir_exists (fs (fst r)) = true).
Proof.
  unfold early_stopping, verdict, running_min, next_flow, ensure_ckpt_dir.
  destruct (Py.lt avg (init_val_loss s)) eqn:Hlt; simpl.
  - destruct (dir_exists (fs s)) eqn:Hd; simpl; auto 10.
  - destruct (Py.ge avg (init_val_loss s)) eqn:Hge; simpl.
    + destruct (count s + 1 =? early_stopping_patience config); simpl; auto 10.
    + auto 10.
Qed.

End StepFacts.

(** ** The body of the epoch loop and the loop *)

Section EpochFacts.

Variable config : Config.
Variable world : World.

Lemma after_steps_dir (epoch : Z) (s : State) :
  dir_exists (fs s) = true ->
  dir_exists (fs (after_steps config world epoch s)) = true.
Proof.
  intros Hd. unfold after_steps.
  destruct (step_loop_spec config world epoch
              (Py.enumerate 0 (train_loader world epoch))
              (set_batch_losses [] s)) as (_ & _ & _ & _ & H).
  apply H. exact Hd.
Qed.

Lemma epoch_body_spec (epoch : Z) (s : State) :
  let s1 := after_steps config world epoch s in
  let b := best_before_epoch_end config world epoch (init_val_loss s) in
  let avg := epoch_val_loss config world epoch in
  let v := verdict avg b in
  let r := epoch_body config world epoch s in
  length (train_losses (fst r)) = S (length (train_losses s))
  /\ (if dir_exists (fs s1)
      then snd r = next_flow config v (count s)
           /\ count (fst r) = next_count v (count s)
           /\ init_val_loss (fst r) = running_min b avg
           /\ dir_exists (fs (fst r)) = true
           /\ files (fs (fst r)) = CheckpointFile (epoch + 1) avg :: files (fs s1)
           /\ (exists avg_loss es,
                  log (fst r) = es ++ AddScalars avg_loss avg (epoch + 1)
                                      :: PrintValLoss (epoch + 1) avg
                                      :: PrintTrainLoss (epoch + 1) avg_loss
                                      :: log s1)
      else snd r = Raise (FileNotFoundError (CheckpointFile (epoch + 1) avg))
           /\ fs (fst r) = fs s1
           /\ count (fst r) = count s
           /\ init_val_loss (fst r) = b).
Proof.
  unfold after_steps, epoch_body, best_before_epoch_end.
  destruct (step_loop_spec config world epoch
              (Py.enumerate 0 (train_loader world epoch))
              (set_batch_losses [] s)) as (H1 & H2 & H3 & H4 & _).
  destruct (step_loop config world epoch _ (set_batch_losses [] s))
    as [s1 [e|]] eqn:E1; simpl in *; [discriminate|].
  destruct (epoch_end_spec config world epoch s1)
    as (G1 & G2 & G3 & G4 & _ & G6 & G7).
  destruct (epoch_end config world epoch s1) as [[s2 avg] [e|]] eqn:E2;
    simpl in *;
    destruct (dir_exists (fs s1)) eqn:Hd; destruct G7 as [G7 G8];
      try discriminate.
  - injection G7 as ->. rewrite G2, G3, G4, G8, H2, H3, H4, length_app; simpl.
    repeat split; auto; lia.
  - subst avg.
    destruct (early_stopping_spec config (epoch_val_loss config world epoch) s2)
      as (F1 & F2 & F3 & F4 & _ & F6 & F7).
    assert (Hl : exists es,
               log (fst (early_stopping config
                           (epoch_val_loss config world epoch) s2))
               = es ++ log s2).
    { unfold early_stopping, ensure_ckpt_dir.
      destruct (Py.lt _ (init_val_loss s2)); simpl.
      - destruct (dir_exists (fs s2)); simpl;
          exists [PrintDone; PrintSaving]; reflexivity.
      - destruct (Py.ge _ (init_val_loss s2)); simpl.
        + destruct (_ =? _); simpl;
            [eexists [_] | exists []]; reflexivity.
        + exists []; reflexivity. }
    destruct (early_stopping config _ s2) as [s3 fl]; simpl in *.
    rewrite G3, H4 in F1, F2, F3. rewrite G2, H2 in F1, F2.
    rewrite F4, G4, H3, length_app; simpl. split; [lia|].
    rewrite F1, F2, F3, F6, G8; simpl.
    repeat split; auto.
    + apply F7. rewrite G8. reflexivity.
    + exists (Py.truediv (Py.sum (batch_losses s1))
                         (train_denominator config world)).
      destruct Hl as [es Hes]. exists es. rewrite Hes, G6. reflexivity.
Qed.

Lemma epoch_loop_patience (range : list Z) :
  forall s,
    dir_exists (fs s) = true ->
    let r := epoch_loop config world range s in
    let pr := patience_run (early_stopping_patience config) (count s)
                           (verdicts config world range (init_val_loss s)) in
    snd r = (if snd pr then Break else Continue)
    /\ length (train_losses (fst r)) = (length (train_losses s) + fst pr)%nat
    /\ dir_exists (fs (fst r)) = true.
Proof.
  induction range as [|epoch rest IH]; intros s Hd; simpl.
  - auto with arith.
  - destruct (epoch_body_spec epoch s) as (L & B).
    rewrite (after_steps_dir epoch s Hd) in B.
    destruct B as (B1 & B2 & B3 & B4 & _).
    destruct (epoch_body config world epoch s) as [s' fl] eqn:E; simpl in *.
    destruct (verdict _ _) eqn:V; simpl in *; subst fl.
    + specialize (IH s' B4); simpl in IH. rewrite B2, B3 in IH.
      destruct (patience_run _ 0 _) as [n b]; simpl in *.
      destruct IH as (I1 & I2 & I3). rewrite I1, I2, L. repeat split; auto; lia.
    + destruct (count s + 1 =? early_stopping_patience config) eqn:Q; simpl.
      * rewrite L. repeat split; auto; lia.
      * specialize (IH s' B4); simpl in IH. rewrite B2, B3 in IH.
        destruct (patience_run _ (count s + 1) _) as [n b]; simpl in *.
        destruct IH as (I1 & I2 & I3). rewrite I1, I2, L.
        repeat split; auto; lia.
    + specialize (IH s' B4); simpl in IH. rewrite B2, B3 in IH.
      destruct (patience_run _ (count s) _) as [n b]; simpl in *.
      destruct IH as (I1 & I2 & I3). rewrite I1, I2, L. repeat split; auto; lia.
Qed.

End EpochFacts.

(** ** The patience counter over a list of verdicts *)

Lemma patience_run_le (P : Z) (vs : list Verdict) :
  forall c, (fst (patience_run P c vs) <= length vs)%nat.
Proof.
  induction vs as [|v rest IH]; intros c; simpl; [lia|].
  destruct v.
  - specialize (IH 0). destruct (patience_run P 0 rest); simpl in *; lia.
  - destruct (c + 1 =? P); simpl; [lia|].
    specialize (IH (c + 1)). destruct (patience_run P (c + 1) rest); simpl in *; lia.
  - specialize (IH c). destruct (patience_run P c rest); simpl in *; lia.
Qed.

Lemma patience_run_full (P : Z) (vs : list Verdict) :
  forall c, snd (patience_run P c vs) = false ->
            fst (patience_run P c vs) = length vs.
Proof.
  induction vs as [|v rest IH]; intros c; simpl; [reflexivity|].
  destruct v.
  - specialize (IH 0). destruct (patience_run P 0 rest); simpl in *.
    intros Hb; rewrite (IH Hb); reflexivity.
  - destruct (c + 1 =? P); simpl; [discriminate|].
    specialize (IH (c + 1)). destruct (patience_run P (c + 1) rest); simpl in *.
    intros Hb; rewrite (IH Hb); reflexivity.
  - specialize (IH c). destruct (patience_run P c rest); simpl in *.
    intros Hb; rewrite (IH Hb); reflexivity.
Qed.

(** A threshold that is not positive is never met: the counter is compared
    only after an increment from a value that is not negative. *)
Lemma patience_run_nonpositive (P : Z) (vs : list Verdict) :
  P <= 0 -> forall c, 0 <= c -> snd (patience_run P c vs) = false.
Proof.
  intros HP. induction vs as [|v rest IH]; intros c Hc; simpl; [reflexivity|].
  destruct v.
  - specialize (IH 0 ltac:(lia)). destruct (patience_run P 0 rest); exact IH.
  - destruct (Z.eqb_spec (c + 1) P); [lia|].
    specialize (IH (c + 1) ltac:(lia)).
    destruct (patience_run P (c + 1) rest); exact IH.
  - specialize (IH c Hc). destruct (patience_run P c rest); exact IH.
Qed.

Lemma failures_cons (v : Verdict) (w : list Verdict) :
  failures (v :: w) = (if is_not_improved v then 1 else 0) + failures w.
Proof.
  destruct v; unfold failures; cbn [filter is_not_improved length]; lia.
Qed.

Lemma failures_nonneg (w : list Verdict) : 0 <= failures w.
Proof. unfold failures; lia. Qed.

(** A window holds a prefix with any smaller number of failures. *)
Lemma failures_prefix (w : list Verdict) :
  forall k, 0 <= k <= failures w ->
            exists w1 w2, w = w1 ++ w2 /\ failures w1 = k.
Proof.
  induction w as [|v w IH]; intros k Hk.
  - exists [], []. unfold failures in *; simpl in *. split; [reflexivity|lia].
  - rewrite failures_cons in Hk.
    destruct (Z.eq_dec k 0) as [->|Hk0].
    + exists [], (v :: w). split; reflexivity.
    + destruct v; cbn [is_not_improved] in Hk.
      * destruct (IH k ltac:(lia)) as (w1 & w2 & -> & Hf).
        exists (Improved :: w1), w2. rewrite failures_cons; simpl. auto.
      * destruct (IH (k - 1) ltac:(lia)) as (w1 & w2 & -> & Hf).
        exists (NotImproved :: w1), w2. rewrite failures_cons.
        cbn [is_not_improved]. split; [reflexivity|lia].
      * destruct (IH k ltac:(lia)) as (w1 & w2 & -> & Hf).
        exists (Unordered :: w1), w2. rewrite failures_cons; simpl. auto.
Qed.

Ltac psimpl :=
  cbn [patience_run is_not_improved fst snd length app In] in *.

Section Patience.

Variable P : Z.
Hypothesis P_positive : 1 <= P.

(** A window at the start of the list that completes the count. *)
Lemma patience_hit_start (vs : list Verdict) :
  forall c w rest,
    0 <= c < P -> vs = w ++ rest -> ~ In Improved w -> failures w = P - c ->
    snd (patience_run P c vs) = true
    /\ (fst (patience_run P c vs) <= length w)%nat.
Proof.
  induction vs as [|v vs IH]; intros c w rest Hc Hvs Hq Hf.
  - destruct w; [|discriminate]. unfold failures in Hf; simpl in Hf. lia.
  - destruct w as [|v' w].
    { unfold failures in Hf; simpl in Hf. lia. }
    psimpl. injection Hvs as <- Hvs.
    rewrite failures_cons in Hf.
    assert (Hq' : ~ In Improved w) by (intros Hin; apply Hq; right; exact Hin).
    destruct v; psimpl.
    + exfalso. apply Hq. left; reflexivity.
    + destruct (Z.eqb_spec (c + 1) P); psimpl; [split; [reflexivity|lia]|].
      destruct (IH (c + 1) w rest ltac:(lia) Hvs Hq' ltac:(lia)) as [I1 I2].
      destruct (patience_run P (c + 1) vs); psimpl. split; [exact I1|lia].
    + destruct (IH c w rest Hc Hvs Hq' ltac:(lia)) as [I1 I2].
      destruct (patience_run P c vs); psimpl. split; [exact I1|lia].
Qed.

(** Any window of [P] failures without an improvement stops the counter, at
    its end at the latest. *)
Lemma patience_hit (vs : list Verdict) :
  forall c pre w rest,
    0 <= c < P -> vs = pre ++ w ++ rest -> ~ In Improved w -> failures w = P ->
    snd (patience_run P c vs) = true
    /\ (fst (patience_run P c vs) <= length pre + length w)%nat.
Proof.
  induction vs as [|v vs IH]; intros c pre w rest Hc Hvs Hq Hf.
  - destruct pre; [|discriminate]. destruct w; [|discriminate].
    unfold failures in Hf; simpl in Hf. lia.
  - destruct pre as [|p pre].
    + cbn [app] in Hvs.
      assert (Hk0 : 0 <= P - c <= failures w) by lia.
      destruct (failures_prefix w (P - c) Hk0) as (w1 & w2 & -> & Hk).
      assert (Hq1 : ~ In Improved w1).
      { intros Hin. apply Hq. apply in_or_app. left; exact Hin. }
      rewrite <- app_assoc in Hvs.
      destruct (patience_hit_start (v :: vs) c w1 (w2 ++ rest) Hc Hvs Hq1 Hk)
        as [I1 I2].
      split; [exact I1|]. rewrite length_app. cbn [length]. lia.
    + psimpl. injection Hvs as <- Hvs.
      destruct v; psimpl.
      * destruct (IH 0 pre w rest ltac:(lia) Hvs Hq Hf) as [I1 I2].
        destruct (patience_run P 0 vs); psimpl. split; [exact I1|lia].
      * destruct (Z.eqb_spec (c + 1) P); psimpl; [split; [reflexivity|lia]|].
        destruct (IH (c + 1) pre w rest ltac:(lia) Hvs Hq Hf) as [I1 I2].
        destruct (patience_run P (c + 1) vs); psimpl. split; [exact I1|lia].
      * destruct (IH c pre w rest Hc Hvs Hq Hf) as [I1 I2].
        destruct (patience_run P c vs); psimpl. split; [exact I1|lia].
Qed.

(** When the counter stops, it stops at the end of such a window. *)
Lemma patience_stop_window (vs : list Verdict) :
  forall c,
    0 <= c < P -> snd (patience_run P c vs) = true ->
    (exists w rest,
        vs = w ++ rest /\ ~ In Improved w /\ failures w = P - c
        /\ fst (patience_run P c vs) = length w)
    \/ (exists pre w rest,
           vs = pre ++ w ++ rest /\ ~ In Improved w /\ failures w = P
           /\ fst (patience_run P c vs) = (length pre + length w)%nat).
Proof.
  induction vs as [|v vs IH]; intros c Hc; psimpl; [discriminate|].
  destruct v.
  - specialize (IH 0 ltac:(lia)).
    destruct (patience_run P 0 vs) as [n b]; psimpl. intros Hb.
    right. destruct (IH Hb) as [(w & rest & -> & Hq & Hf & Hn)
                               |(pre & w & rest & -> & Hq & Hf & Hn)].
    + exists [Improved], w, rest. psimpl. repeat split; auto; lia.
    + exists (Improved :: pre), w, rest. psimpl. repeat split; auto; lia.
  - destruct (Z.eqb_spec (c + 1) P); psimpl.
    + intros _. left. exists [NotImproved], vs. psimpl.
      repeat split; auto.
      * intros [H|[]]; discriminate.
      * rewrite failures_cons. unfold failures; psimpl; simpl; lia.
    + specialize (IH (c + 1) ltac:(lia)).
      destruct (patience_run P (c + 1) vs) as [m b]; psimpl. intros Hb.
      destruct (IH Hb) as [(w & rest & -> & Hq & Hf & Hn)
                          |(pre & w & rest & -> & Hq & Hf & Hn)].
      * left. exists (NotImproved :: w), rest. rewrite failures_cons; psimpl.
        repeat split; auto; try lia.
        intros [H|H]; [discriminate|auto].
      * right. exists (NotImproved :: pre), w, rest. psimpl.
        repeat split; auto; lia.
  - specialize (IH c Hc).
    destruct (patience_run P c vs) as [m b]; psimpl. intros Hb.
    destruct (IH Hb) as [(w & rest & -> & Hq & Hf & Hn)
                        |(pre & w & rest & -> & Hq & Hf & Hn)].
    + left. exists (Unordered :: w), rest. rewrite failures_cons; psimpl.
      repeat split; auto; try lia.
      intros [H|H]; [discriminate|auto].
    + right. exists (Unordered :: pre), w, rest. psimpl.
      repeat split; auto; lia.
Qed.

End Patience.

(** ** The whole training loop *)

Lemma range_length (a b : Z) : Z.of_nat (length (Py.range a b)) = Z.max 0 (b - a).
Proof.
  unfold Py.range. rewrite length_map, length_seq. lia.
Qed.

Lemma verdicts_length (config : Config) (world : World) (range : list Z) :
  forall best, length (verdicts config world range best) = length range.
Proof.
  induction range as [|e rest IH]; intros best; simpl; [reflexivity|].
  rewrite IH. reflexivity.
Qed.

Lemma training_patience (config : Config) (world : World) (s : State) :
  dir_exists (fs s) = true ->
  let r := training config world s in
  let pr := patience_run (early_stopping_patience config) 0
              (verdicts config world
                 (Py.range (warm_start_epoch config) (epochs config))
                 PrimFloat.infinity) in
  snd r = (if snd pr then Break else Continue)
  /\ epochs_executed (fst r) = Z.of_nat (fst pr)
  /\ dir_exists (fs (fst r)) = true.
Proof.
  intros Hd. unfold training.
  destruct (epoch_loop_patience config world
              (Py.range (warm_start_epoch config) (epochs config))
              (training_init s) Hd) as (H1 & H2 & H3).
  simpl in H1, H2.
  destruct (epoch_loop config world _ (training_init s)) as [s' fl];
    simpl in *.
  destruct (patience_run _ 0 _) as [n b]; simpl in *.
  subst fl. unfold epochs_executed.
  destruct b; simpl; rewrite H2; auto.
Qed.

Lemma epoch_loop_no_break (config : Config) (world : World) (range : list Z) :
  early_stopping_patience config <= 0 ->
  forall s, 0 <= count s ->
            snd (epoch_loop config world range s) <> Break.
Proof.
  intros HP. induction range as [|epoch rest IH]; intros s Hc; simpl.
  - discriminate.
  - destruct (epoch_body_spec config world epoch s) as (_ & B).
    destruct (epoch_body config world epoch s) as [s' fl]; simpl in *.
    destruct (dir_exists (fs (after_steps config world epoch s))).
    + destruct B as (B1 & B2 & _). subst fl.
      destruct (verdict _ _); simpl in *.
      * apply IH. lia.
      * destruct (Z.eqb_spec (count s + 1) (early_stopping_patience config));
          [lia|]. apply IH. lia.
      * apply IH. lia.
    + destruct B as (B1 & _). subst fl. simpl. discriminate.
Qed.

Lemma small_world_consistent (E W P : Z) (ev : Z -> float) :
  loaders_consistent (example_config E W P) (small_world ev).
Proof. repeat split. Qed.

Lemma large_world_consistent (E W P : Z) (sv ev : Z -> float) :
  loaders_consistent (example_config E W P) (large_world sv ev).
Proof. repeat split. Qed.

(** C10: with a patience that is zero or negative the early stop never
    triggers, whatever the validation losses: the loop is never left through
    the break, and when the checkpoint directory exists it runs all epochs of
    [range(warm_start_epoch, epochs)]. *)
Theorem C10_nonpositive_patience_never_stops :
  forall (config : Config) (world : World) (s : State),
    early_stopping_patience config <= 0 ->
    let r := training config world s in
    snd r <> Break
    /\ (dir_exists (fs s) = true ->
        snd r = Continue
        /\ epochs_executed (fst r)
           = Z.max 0 (epochs config - warm_start_epoch config)).
Proof.
  intros config world s HP r. split.
  - subst r. unfold training.
    pose proof (epoch_loop_no_break config world
                  (Py.range (warm_start_epoch config) (epochs config))
                  HP (training_init s)) as H.
    destruct (epoch_loop config world _ (training_init s)) as [s' fl].
    simpl in H. specialize (H ltac:(lia)).
    destruct fl; simpl; congruence.
  - intros Hd.
    destruct (training_patience config world s Hd) as (H1 & H2 & _).
    fold r in H1, H2.
    pose proof (patience_run_nonpositive (early_stopping_patience config)
                  (verdicts config world
                     (Py.range (warm_start_epoch config) (epochs config))
                     PrimFloat.infinity) HP 0 ltac:(lia)) as Hb.
    rewrite Hb in H1. split; [exact H1|].
    rewrite H2, (patience_run_full _ _ _ Hb), verdicts_length.
    apply range_length.
Qed.

Lemma C10_witness :
  let r := training (example_config 2 0 0) (small_world (fun _ => 0.5%float))
                    (initial_state empty_dir) in
  snd r <> Break
  /\ (dir_exists (fs (initial_state empty_dir)) = true ->
      snd r = Continue /\ epochs_executed (fst r) = Z.max 0 (2 - 0)).
Proof.
  apply (C10_nonpositive_patience_never_stops
           (example_config 2 0 0) (small_world (fun _ => 0.5%float))
           (initial_state empty_dir)).
  simpl. lia.
Defined.

(** C1 (as amended): with a patience [P >= 1] and the checkpoint directory in
    place, the loop never raises and runs at most
    [max 0 (epochs - warm_start_epoch)] epochs, hence at most [epochs] of
    them when [epochs >= 1] and [warm_start_epoch >= 0]; it either exhausts
    its range, having run all these epochs, or breaks; and it breaks exactly
    when there is a stretch of consecutive epoch-end checks, none of which
    improves on the best loss so far, that holds [P] checks with a loss [>=]
    that best, the run ending at the end of the first such stretch (a loss
    that compares neither way is not counted). *)
Theorem C1_epochs_bounded_and_patience_stop :
  forall (config : Config) (world : World) (s : State),
    1 <= early_stopping_patience config ->
    dir_exists (fs s) = true ->
    let P := early_stopping_patience config in
    let total := Z.max 0 (epochs config - warm_start_epoch config) in
    let vs := verdicts config world
                (Py.range (warm_start_epoch config) (epochs config))
                PrimFloat.infinity in
    let r := training config world s in
    epochs_executed (fst r) <= total
    /\ (1 <= epochs config -> 0 <= warm_start_epoch config ->
        epochs_executed (fst r) <= epochs config)
    /\ (snd r = Continue \/ snd r = Break)
    /\ (snd r = Continue -> epochs_executed (fst r) = total)
    /\ (snd r = Break ->
        exists pre w, patience_window P vs pre w
                      /\ epochs_executed (fst r)
                         = Z.of_nat (length pre + length w))
    /\ (forall pre w, patience_window P vs pre w ->
                      snd r = Break
                      /\ epochs_executed (fst r)
                         <= Z.of_nat (length pre + length w)).
Proof.
  intros config world s HP Hd P total vs r.
  destruct (training_patience config world s Hd) as (H1 & H2 & _).
  fold r vs P in H1, H2.
  pose proof (patience_run_le P vs 0) as Hle.
  assert (Hlen : Z.of_nat (length vs) = total).
  { subst vs. rewrite verdicts_length. apply range_length. }
  repeat split.
  - lia.
  - intros HE HW. lia.
  - destruct (snd (patience_run P 0 vs)); auto.
  - intros Hc. rewrite Hc in H1.
    destruct (snd (patience_run P 0 vs)) eqn:Hb; [discriminate|].
    rewrite H2, (patience_run_full _ _ _ Hb). exact Hlen.
  - intros Hbr. rewrite Hbr in H1.
    destruct (snd (patience_run P 0 vs)) eqn:Hb; [|discriminate].
    destruct (patience_stop_window P HP vs 0 ltac:(lia) Hb)
      as [(w & rest & Hvs & Hq & Hf & Hn)|(pre & w & rest & Hvs & Hq & Hf & Hn)].
    + exists [], w. split.
      * repeat split; [exists rest; exact Hvs|exact Hq|lia].
      * rewrite H2, Hn. reflexivity.
    + exists pre, w. split.
      * repeat split; [exists rest; exact Hvs|exact Hq|exact Hf].
      * rewrite H2, Hn. reflexivity.
  - destruct H as ((rest & Hvs) & Hq & Hf).
    destruct (patience_hit P HP vs 0 pre w rest ltac:(lia) Hvs Hq Hf) as [I1 _].
    rewrite I1 in H1. exact H1.
  - destruct H as ((rest & Hvs) & Hq & Hf).
    destruct (patience_hit P HP vs 0 pre w rest ltac:(lia) Hvs Hq Hf) as [_ I2].
    rewrite H2. lia.
Qed.

(** The theorem at patience 1 over five epochs, the directory in place. *)
Lemma C1_witness :
  let config := example_config 5 0 1 in
  let world := small_world first_half_then_worse in
  let s := initial_state empty_dir in
  let P := early_stopping_patience config in
  let total := Z.max 0 (epochs config - warm_start_epoch config) in
  let vs := verdicts config world
              (Py.range (warm_start_epoch config) (epochs config))
              PrimFloat.infinity in
  let r := training config world s in
  epochs_executed (fst r) <= total
  /\ (1 <= epochs config -> 0 <= warm_start_epoch config ->
      epochs_executed (fst r) <= epochs config)
  /\ (snd r = Continue \/ snd r = Break)
  /\ (snd r = Continue -> epochs_executed (fst r) = total)
  /\ (snd r = Break ->
      exists pre w, patience_window P vs pre w
                    /\ epochs_executed (fst r)
                       = Z.of_nat (length pre + length w))
  /\ (forall pre w, patience_window P vs pre w ->
                    snd r = Break
                    /\ epochs_executed (fst r)
                       <= Z.of_nat (length pre + length w)).
Proof.
  apply (C1_epochs_bounded_and_patience_stop
           (example_config 5 0 1)
           (small_world first_half_then_worse)
           (initial_state empty_dir)).
  - simpl; lia.
  - reflexivity.
Defined.

(** The scenario of the specification: validation losses 0.5 then 0.75 with
    patience 1 stop the run after the second of five epochs. *)
Example spec_scenario_patience_1 :
  let r := training (example_config 5 0 1)
             (small_world first_half_then_worse)
             (initial_state empty_dir) in
  snd r = Break /\ epochs_executed (fst r) = 2.
Proof. vm_compute. split; reflexivity. Qed.

(** C1 as stated fails in two ways.  With patience 1 and a validation loss
    that is NaN at the end of every epoch, each check fails to improve, yet
    the counter never moves and all 3 epochs run.  With patience 0 any run
    holds 0 consecutive checks without improvement, yet the loop never
    breaks. *)
Lemma C1_counterexample :
  (let config := example_config 3 0 1 in
   let world := small_world (fun _ => PrimFloat.nan) in
   let r := training config world (initial_state empty_dir) in
   consecutive_non_improving 1
     (verdicts config world (Py.range 0 3) PrimFloat.infinity)
   /\ snd r = Continue
   /\ epochs_executed (fst r) = 3)
  /\ (let config := example_config 2 0 0 in
      let world := small_world (fun _ => 0.5%float) in
      let r := training config world (initial_state empty_dir) in
      consecutive_non_improving 0
        (verdicts config world (Py.range 0 2) PrimFloat.infinity)
      /\ snd r = Continue
      /\ epochs_executed (fst r) = 2).
Proof.
  split.
  - split; [|vm_compute; split; reflexivity].
    exists [], [Unordered], [Unordered; Unordered].
    split; [vm_compute; reflexivity|]. split; [reflexivity|].
    constructor; [discriminate|constructor].
  - split; [|vm_compute; split; reflexivity].
    exists [], [], [Improved; NotImproved].
    split; [vm_compute; reflexivity|]. split; [reflexivity|constructor].
Qed.

(** Without a loss that compares neither way, a patience window is [P]
    consecutive checks that all fail to improve, and conversely. *)
Lemma patience_window_consecutive (P : Z) (vs pre w : list Verdict) :
  ~ In Unordered w ->
  (patience_window P vs pre w
   <-> (exists rest, vs = pre ++ w ++ rest)
       /\ Z.of_nat (length w) = P
       /\ Forall (fun v => v = NotImproved) w).
Proof.
  intros Hu.
  assert (Hall : ~ In Improved w -> Forall (fun v => v = NotImproved) w).
  { intros Hq. apply Forall_forall. intros v Hv.
    destruct v; [elim Hq; exact Hv|reflexivity|elim Hu; exact Hv]. }
  assert (Hcount : Forall (fun v => v = NotImproved) w ->
                   failures w = Z.of_nat (length w) /\ ~ In Improved w).
  { clear. induction w as [|v w IH]; intros Hf.
    - split; [reflexivity|intros []].
    - inversion Hf as [|? ? Hv Hw]; subst.
      destruct (IH Hw) as [I1 I2]. rewrite failures_cons, I1.
      cbn [is_not_improved length]. split; [lia|].
      intros [H|H]; [discriminate|exact (I2 H)]. }
  unfold patience_window. split.
  - intros (Hvs & Hq & Hf). pose proof (Hall Hq) as Hw.
    destruct (Hcount Hw) as [Hc _]. repeat split; auto. lia.
  - intros (Hvs & Hl & Hw). destruct (Hcount Hw) as [Hc Hq].
    repeat split; auto. lia.
Qed.

(** ** The patience counter and the best validation loss *)

Lemma step_best_non_increasing (config : Config) (world : World)
      (epoch i : Z) (best : float) :
  non_increasing best (step_best config world epoch i best).
Proof.
  unfold step_best. destruct (_ =? _).
  - apply running_min_non_increasing.
  - apply non_increasing_refl.
Qed.

Lemma best_after_steps_non_increasing (config : Config) (world : World)
      (epoch : Z) (batches : list (Z * float)) :
  forall best,
    non_increasing best (best_after_steps config world epoch batches best).
Proof.
  unfold best_after_steps.
  induction batches as [|[i loss] rest IH]; intros best; simpl.
  - apply non_increasing_refl.
  - eapply non_increasing_trans; [apply step_best_non_increasing|apply IH].
Qed.

Lemma epoch_body_non_increasing (config : Config) (world : World)
      (epoch : Z) (s : State) :
  non_increasing (init_val_loss s)
                 (init_val_loss (fst (epoch_body config world epoch s))).
Proof.
  destruct (epoch_body_spec config world epoch s) as (_ & B).
  pose proof (best_after_steps_non_increasing config world epoch
                (Py.enumerate 0 (train_loader world epoch))
                (init_val_loss s)) as Hb.
  fold (best_before_epoch_end config world epoch (init_val_loss s)) in Hb.
  destruct (dir_exists (fs (after_steps config world epoch s))).
  - destruct B as (_ & _ & B3 & _). rewrite B3.
    eapply non_increasing_trans; [exact Hb|apply running_min_non_increasing].
  - destruct B as (_ & _ & _ & B4). rewrite B4. exact Hb.
Qed.

Lemma epoch_loop_non_increasing (config : Config) (world : World)
      (range : list Z) :
  forall s,
    non_increasing (init_val_loss s)
                   (init_val_loss (fst (epoch_loop config world range s))).
Proof.
  induction range as [|epoch rest IH]; intros s; simpl.
  - apply non_increasing_refl.
  - pose proof (epoch_body_non_increasing config world epoch s) as Hb.
    destruct (epoch_body config world epoch s) as [s' fl]; simpl in *.
    destruct fl; simpl; auto.
    eapply non_increasing_trans; [exact Hb|apply IH].
Qed.

(** C5: the best validation loss starts at [+infinity], and every step,
    every epoch-end check, every epoch and the whole loop leave it unchanged
    or replace it by a strictly smaller value. *)
Theorem C5_best_val_loss_non_increasing :
  forall (config : Config) (world : World),
    (forall s, init_val_loss (training_init s) = PrimFloat.infinity)
    /\ (forall epoch i loss s,
           non_increasing
             (init_val_loss s)
             (init_val_loss (fst (train_step config world epoch i loss s))))
    /\ (forall avg s,
           non_increasing
             (init_val_loss s)
             (init_val_loss (fst (early_stopping config avg s))))
    /\ (forall epoch s,
           non_increasing
             (init_val_loss s)
             (init_val_loss (fst (epoch_body config world epoch s))))
    /\ (forall range s,
           non_increasing
             (init_val_loss s)
             (init_val_loss (fst (epoch_loop config world range s))))
    /\ (forall s,
           non_increasing
             PrimFloat.infinity
             (init_val_loss (fst (training config world s)))).
Proof.
  intros config world. repeat split.
  - intros epoch i loss s.
    destruct (train_step_spec config world epoch i loss s) as (_ & _ & _ & H & _).
    rewrite H. apply step_best_non_increasing.
  - intros avg s.
    destruct (early_stopping_spec config avg s) as (_ & _ & H & _).
    rewrite H. apply running_min_non_increasing.
  - intros epoch s. apply epoch_body_non_increasing.
  - intros range s. apply epoch_loop_non_increasing.
  - intros s. unfold training.
    pose proof (epoch_loop_non_increasing config world
                  (Py.range (warm_start_epoch config) (epochs config))
                  (training_init s)) as H.
    destruct (epoch_loop config world _ (training_init s)) as [s' fl].
    simpl in H. destruct fl; simpl; exact H.
Qed.

(** C2 (as amended): the counter is changed by the early-stopping policy at
    the end of an epoch only.  There it is reset to 0 exactly when the
    validation loss of the epoch is a new best, incremented by one when that
    loss is [>=] the best so far, and kept when the two do not compare.  A
    training step, its validation included, and the end of the epoch up to
    the save leave it as it is. *)
Theorem C2_patience_counter_updates :
  forall (config : Config) (world : World),
    (forall epoch i loss s,
        count (fst (train_step config world epoch i loss s)) = count s)
    /\ (forall epoch batches s,
           count (fst (step_loop config world epoch batches s)) = count s)
    /\ (forall epoch s,
           count (fst (fst (epoch_end config world epoch s))) = count s)
    /\ (forall avg s,
           let r := early_stopping config avg s in
           match verdict avg (init_val_loss s) with
           | Improved =>
               count (fst r) = 0 /\ init_val_loss (fst r) = avg
           | NotImproved =>
               count (fst r) = count s + 1
               /\ init_val_loss (fst r) = init_val_loss s
           | Unordered =>
               count (fst r) = count s
               /\ init_val_loss (fst r) = init_val_loss s
           end)
    /\ (forall epoch s,
           count (fst (epoch_body config world epoch s))
           = if dir_exists (fs (after_steps config world epoch s))
             then next_count
                    (verdict (epoch_val_loss config world epoch)
                             (best_before_epoch_end config world epoch
                                                    (init_val_loss s)))
                    (count s)
             else count s).
Proof.
  intros config world. repeat split.
  - intros epoch i loss s.
    apply (train_step_spec config world epoch i loss s).
  - intros epoch batches s.
    apply (step_loop_spec config world epoch batches s).
  - intros epoch s. apply (epoch_end_spec config world epoch s).
  - intros avg s.
    destruct (early_stopping_spec config avg s) as (H1 & _ & H3 & _).
    simpl. rewrite H1, H3. unfold verdict, running_min.
    destruct (Py.lt avg (init_val_loss s)); simpl; [auto|].
    destruct (Py.ge avg (init_val_loss s)); simpl; auto.
  - intros epoch s.
    destruct (epoch_body_spec config world epoch s) as (_ & B).
    destruct (dir_exists (fs (after_steps config world epoch s))); apply B.
Qed.

(** C2 as stated fails: in the third epoch of this run the validation after
    the fourth step records a new best (0.25 below 0.5) and saves its
    checkpoint, and the counter, 1 since the end of the second epoch, stays
    1. *)
Lemma C2_counterexample :
  let config := example_config 3 0 5 in
  let world := large_world step_losses first_half_then_worse in
  let s2 := fst (epoch_loop config world [0; 1]
                            (training_init (initial_state empty_dir))) in
  let s := fst (step_loop config world 2
                          (Py.enumerate 0 [1%float; 1%float; 1%float])
                          (set_batch_losses [] s2)) in
  let r := train_step config world 2 3 1%float s in
  count s = 1
  /\ init_val_loss s = 0.5%float
  /\ init_val_loss (fst r) = 0.25%float
  /\ Py.lt (init_val_loss (fst r)) (init_val_loss s) = true
  /\ saved 0 0.25%float (fst r)
  /\ count (fst r) = 1.
Proof.
  vm_compute. repeat split. left; reflexivity.
Qed.

(** ** The validation mean *)

Lemma denominators_positive (config : Config) (world : World) :
  0 <= len_trainset world -> 0 < train_batch_size config ->
  0 <= len_valset world -> 0 < val_batch_size config ->
  1 <= train_denominator config world /\ 1 <= val_denominator config world.
Proof.
  intros Ht Hb Hv Hc. unfold train_denominator, val_denominator.
  pose proof (Z.div_pos (len_trainset world) (train_batch_size config) Ht Hb).
  pose proof (Z.div_pos (len_valset world) (val_batch_size config) Hv Hc).
  lia.
Qed.

(** The denominator is the number of batches unless the batch size divides
    the size of the set, when it is one more. *)
Lemma val_denominator_vs_loader_len (config : Config) (world : World) :
  0 <= len_valset world -> 0 < val_batch_size config ->
  val_denominator config world
  = loader_len (len_valset world) (val_batch_size config)
    + (if len_valset world mod val_batch_size config =? 0 then 1 else 0).
Proof.
  intros Hm Hb. unfold val_denominator, loader_len.
  set (m := len_valset world). set (b := val_batch_size config).
  pose proof (Z.div_mod m b ltac:(lia)) as Hdm.
  pose proof (Z.mod_pos_bound m b Hb) as Hr.
  destruct (Z.eqb_spec (m mod b) 0) as [H0|H0].
  - assert (Hq : (m + b - 1) / b = m / b).
    { symmetry. apply (Z.div_unique (m + b - 1) b (m / b) (b - 1)); lia. }
    lia.
  - assert (Hq : (m + b - 1) / b = m / b + 1).
    { symmetry.
      apply (Z.div_unique (m + b - 1) b (m / b + 1) (m mod b - 1)); lia. }
    lia.
Qed.

(** C3: the validation inside the step loop and the validation at the end of
    an epoch both divide the sum of the batch losses by
    [len(valset) // val_batch_size + 1]; for 100 samples in batches of 30
    this is 4, and for 90 samples it is 4 as well, over 3 batches. *)
Theorem C3_validation_mean_denominator :
  (forall (config : Config) (world : World),
      (forall epoch i s,
          val_losses (fst (step_validation config world epoch i s))
          = val_losses s
            ++ [PrimFloat.div
                  (Py.sum (step_val_loader world epoch i))
                  (Py.float_of_int
                     (len_valset world / val_batch_size config + 1))])
      /\ (forall epoch s,
             snd (fst (epoch_end config world epoch s))
             = PrimFloat.div
                 (Py.sum (epoch_val_loader world epoch))
                 (Py.float_of_int
                    (len_valset world / val_batch_size config + 1))))
  /\ (val_denominator (val_config 30) (val_world 100 [2; 2; 2; 2]%float) = 4
      /\ loader_len 100 30 = 4
      /\ avg_val_loss (val_config 30) (val_world 100 [2; 2; 2; 2]%float)
                      [2; 2; 2; 2]%float = 2%float)
  /\ (val_denominator (val_config 30) (val_world 90 [2; 2; 2]%float) = 4
      /\ loader_len 90 30 = 3
      /\ avg_val_loss (val_config 30) (val_world 90 [2; 2; 2]%float)
                      [2; 2; 2]%float = 1.5%float).
Proof.
  split; [|split; vm_compute; repeat split].
  intros config world. split.
  - intros epoch i s.
    destruct (step_validation_spec config world epoch i s)
      as (_ & _ & _ & H & _).
    exact H.
  - intros epoch s.
    destruct (epoch_end_spec config world epoch s) as (H & _).
    exact H.
Qed.

(** ** The validation inside the step loop *)

(** C4: step [i] (counted from 0) runs a validation exactly when [i + 1] is
    a multiple of 4; the validation is reported under the label
    [(i + 1) // 6], and it saves a checkpoint under that label and its loss
    exactly when the loss is strictly below the best so far, which it then
    replaces.  Any other step leaves the validation losses, the checkpoint
    directory and the best loss alone. *)
Theorem C4_step_validation_schedule :
  forall (config : Config) (world : World) (epoch i : Z) (loss : float)
         (s : State),
    let avg := avg_val_loss config world (step_val_loader world epoch i) in
    let r := train_step config world epoch i loss s in
    snd r = None
    /\ if (i + 1) mod 4 =? 0
       then val_losses (fst r) = val_losses s ++ [avg]
            /\ In (PrintValLoss ((i + 1) / 6) avg) (log (fst r))
            /\ (if Py.lt avg (init_val_loss s)
                then files (fs (fst r))
                     = CheckpointFile ((i + 1) / 6) avg :: files (fs s)
                     /\ dir_exists (fs (fst r)) = true
                     /\ init_val_loss (fst r) = avg
                else fs (fst r) = fs s
                     /\ init_val_loss (fst r) = init_val_loss s)
       else val_losses (fst r) = val_losses s
            /\ fs (fst r) = fs s
            /\ init_val_loss (fst r) = init_val_loss s
            /\ log (fst r)
               = [AddScalar loss (i + epoch * train_denominator config world);
                  PrintStep (epoch + 1) (epochs config) (i + 1)
                            (train_denominator config world) loss]
                 ++ log s.
Proof.
  intros config world epoch i loss s avg r. subst avg r.
  unfold train_step.
  destruct ((i + 1) mod 4 =? 0); simpl; [|auto 10].
  unfold step_validation; simpl.
  destruct (Py.lt _ (init_val_loss s)); simpl.
  - unfold ensure_ckpt_dir, torch_save; simpl.
    destruct (dir_exists (fs s)) eqn:Hd; simpl; rewrite ?Hd; simpl; auto 12.
  - auto 10.
Qed.

(** ** Checkpoints and metrics of the end of an epoch *)

Lemma extends_refl {A : Type} (l : list A) : extends l l.
Proof. exists []; reflexivity. Qed.

Lemma extends_trans {A : Type} (l1 l2 l3 : list A) :
  extends l1 l2 -> extends l2 l3 -> extends l1 l3.
Proof.
  intros [a ->] [b ->]. exists (b ++ a). rewrite app_assoc. reflexivity.
Qed.

Lemma extends_In {A : Type} (old new : list A) (x : A) :
  extends old new -> In x old -> In x new.
Proof. intros [l ->] H. apply in_or_app. right; exact H. Qed.

Section Growth.

Variable config : Config.
Variable world : World.

Lemma train_step_extends (epoch i : Z) (loss : float) (s : State) :
  let r := train_step config world epoch i loss s in
  extends (files (fs s)) (files (fs (fst r)))
  /\ extends (log s) (log (fst r)).
Proof.
  unfold train_step, step_validation.
  destruct ((i + 1) mod 4 =? 0); simpl.
  - destruct (Py.lt _ (init_val_loss s)); simpl.
    + unfold ensure_ckpt_dir, torch_save; simpl.
      destruct (dir_exists (fs s)) eqn:Hd; simpl; rewrite ?Hd; simpl;
        (split; [eexists [_]|eexists [_; _; _; _; _]]; reflexivity).
    + split; [exists []|eexists [_; _; _]]; reflexivity.
  - split; [exists []|eexists [_; _]]; reflexivity.
Qed.

Lemma step_loop_extends (epoch : Z) (batches : list (Z * float)) :
  forall s,
    let r := step_loop config world epoch batches s in
    extends (files (fs s)) (files (fs (fst r)))
    /\ extends (log s) (log (fst r)).
Proof.
  induction batches as [|[i loss] rest IH]; intros s; simpl.
  - split; apply extends_refl.
  - destruct (train_step_extends epoch i loss s) as [H1 H2].
    destruct (train_step_spec config world epoch i loss s) as (H0 & _).
    destruct (train_step config world epoch i loss s) as [s' [e|]];
      simpl in *; [discriminate|].
    destruct (IH s') as [I1 I2].
    split; eapply extends_trans; eauto.
Qed.

Lemma epoch_body_extends (epoch : Z) (s : State) :
  dir_exists (fs s) = true ->
  let avg := epoch_val_loss config world epoch in
  let r := epoch_body config world epoch s in
  extends (files (fs s)) (files (fs (fst r)))
  /\ extends (log s) (log (fst r))
  /\ saved (epoch + 1) avg (fst r)
  /\ (exists avg_loss, In (AddScalars avg_loss avg (epoch + 1)) (log (fst r)))
  /\ dir_exists (fs (fst r)) = true
  /\ (snd r = Continue \/ snd r = Break)
  /\ length (train_losses (fst r)) = S (length (train_losses s)).
Proof.
  intros Hd.
  destruct (epoch_body_spec config world epoch s) as (L & B).
  rewrite (after_steps_dir config world epoch s Hd) in B.
  destruct B as (B1 & _ & _ & B4 & B5 & (al & es & B6)).
  destruct (step_loop_extends epoch (Py.enumerate 0 (train_loader world epoch))
                              (set_batch_losses [] s)) as [S1 S2].
  fold (after_steps config world epoch s) in S1, S2. simpl in S1, S2.
  simpl. unfold saved. rewrite B5, B6.
  repeat split; auto.
  - eapply extends_trans; [exact S1|]. eexists [_]; reflexivity.
  - eapply extends_trans; [exact S2|].
    exists (es ++ [AddScalars al (epoch_val_loss config world epoch) (epoch + 1);
                   PrintValLoss (epoch + 1) (epoch_val_loss config world epoch);
                   PrintTrainLoss (epoch + 1) al]).
    rewrite <- app_assoc. reflexivity.
  - left; reflexivity.
  - exists al. apply in_or_app. right. left. reflexivity.
  - rewrite B1. unfold next_flow.
    destruct (verdict _ _); auto. destruct (_ =? _); auto.
Qed.

Lemma epoch_loop_saved (range : list Z) :
  forall s,
    dir_exists (fs s) = true ->
    let r := epoch_loop config world range s in
    exists n,
      (n <= length range)%nat
      /\ length (train_losses (fst r)) = (length (train_losses s) + n)%nat
      /\ extends (files (fs s)) (files (fs (fst r)))
      /\ extends (log s) (log (fst r))
      /\ (snd r = Continue \/ snd r = Break)
      /\ forall epoch,
          In epoch (firstn n range) ->
          saved (epoch + 1) (epoch_val_loss config world epoch) (fst r)
          /\ exists avg_loss,
              In (AddScalars avg_loss (epoch_val_loss config world epoch)
                             (epoch + 1)) (log (fst r)).
Proof.
  induction range as [|epoch rest IH]; intros s Hd; simpl.
  - exists O. simpl. repeat split; auto using extends_refl; try lia.
  - destruct (epoch_body_extends epoch s Hd)
      as (E1 & E2 & E3 & (al & E4) & E5 & E6 & E7).
    destruct (epoch_body config world epoch s) as [s' fl]; simpl in *.
    destruct E6 as [-> | ->].
    + destruct (IH s' E5) as (n & N1 & N2 & N3 & N4 & N5 & N6).
      exists (S n). simpl. repeat split; auto; try lia.
      * eapply extends_trans; eauto.
      * eapply extends_trans; eauto.
      * destruct H as [<- | H]; [|apply (N6 _ H)].
        unfold saved in *. eapply extends_In; eauto.
      * destruct H as [<- | H]; [|apply (N6 _ H)].
        exists al. eapply extends_In; eauto.
    + exists 1%nat. simpl. repeat split; auto; try lia.
      * destruct H as [<- | []]. exact E3.
      * destruct H as [<- | []]. exists al. exact E4.
Qed.

End Growth.

Lemma firstn_seq_le (n : nat) :
  forall start len, (n <= len)%nat -> firstn n (seq start len) = seq start n.
Proof.
  induction n as [|n IH]; intros start len Hn; [reflexivity|].
  destruct len as [|len]; [lia|]. simpl. rewrite IH by lia. reflexivity.
Qed.

Lemma range_firstn_In (a b : Z) (n : nat) (k : Z) :
  (n <= length (Py.range a b))%nat -> 0 <= k < Z.of_nat n ->
  In (a + k) (firstn n (Py.range a b)).
Proof.
  intros Hn Hk. unfold Py.range in *.
  rewrite length_map, length_seq in Hn.
  rewrite firstn_map, firstn_seq_le by exact Hn.
  replace (a + k) with (a + Z.of_nat (Z.to_nat k)) by lia.
  apply (in_map (fun j => a + Z.of_nat j)). apply in_seq. lia.
Qed.

(** C6 fails on the code: without a checkpoint directory and with 2 steps
    per epoch, [main] runs the first epoch to its end, the validation pass
    done and the pair of epoch losses logged under 1, and the save of line
    130 raises: the epoch has been run and no checkpoint of it exists. *)
Theorem C6_epoch_run_without_checkpoint :
  let r := main (example_config 1 0 10) (small_world (fun _ => 0.5%float))
                no_dir in
  epochs_executed (fst r) = 1
  /\ train_losses (fst r) = [1%float]
  /\ val_losses (fst r) = [0.5%float]
  /\ In (AddScalars 1%float 0.5%float 1) (log (fst r))
  /\ files (fs (fst r)) = []
  /\ (forall loss, ~ saved 1 loss (fst r))
  /\ snd r = Some (FileNotFoundError (CheckpointFile 1 0.5%float)).
Proof.
  repeat split; try (vm_compute; reflexivity).
  - vm_compute. auto.
  - intros loss H. vm_compute in H. exact H.
Qed.

(** ** Saving without a checkpoint directory *)

(** The save of line 130 comes before the directory is looked at (lines
    136-137): without a directory, an epoch of fewer than 4 steps ends in
    [FileNotFoundError]. *)
Lemma epoch_body_raises_without_dir (config : Config) (world : World)
      (epoch : Z) (s : State) :
  dir_exists (fs s) = false ->
  (length (train_loader world epoch) < 4)%nat ->
  snd (epoch_body config world epoch s)
  = Raise (FileNotFoundError
             (CheckpointFile (epoch + 1) (epoch_val_loss config world epoch))).
Proof.
  intros Hd Hl.
  destruct (epoch_body_spec config world epoch s) as (_ & B).
  assert (Hs : dir_exists (fs (after_steps config world epoch s)) = false).
  { unfold after_steps.
    destruct (train_loader world epoch) as [|a [|b [|c [|d l]]]];
      simpl in Hl; try lia; simpl; exact Hd. }
  rewrite Hs in B. apply B.
Qed.

(** The validation inside the step loop looks at the directory first and
    never raises. *)
Lemma step_validation_never_raises (config : Config) (world : World)
      (epoch i : Z) (s : State) :
  snd (step_validation config world epoch i s) = None.
Proof. apply (step_validation_spec config world epoch i s). Qed.

(** C7 fails on the code: without a checkpoint directory and with 2 steps
    per epoch, [main] runs the first epoch and ends in the
    [FileNotFoundError] of the save of line 130, the directory still
    missing. *)
Theorem C7_epoch_end_save_without_directory :
  let r := main (example_config 1 0 10) (small_world (fun _ => 0.5%float))
                no_dir in
  snd r = Some (FileNotFoundError (CheckpointFile 1 0.5%float))
  /\ fs (fst r) = no_dir
  /\ epochs_executed (fst r) = 1.
Proof. vm_compute. repeat split. Qed.

(** ** Warm start *)

(** C8: with a warm start whose file ['epoch-N.pth'] is not in the checkpoint
    directory, [main] ends in [FileNotFoundError] for that file, in its
    initial state: nothing is logged, no training step has run. *)
Theorem C8_warm_start_missing_checkpoint :
  forall (config : Config) (world : World) (d : FS),
    warm_start config = true ->
    file_exists_warm (warm_start_epoch config) d = false ->
    let r := main config world d in
    snd r = Some (FileNotFoundError (WarmStartFile (warm_start_epoch config)))
    /\ fst r = initial_state d
    /\ existsb is_step_event (log (fst r)) = false
    /\ epochs_executed (fst r) = 0.
Proof.
  intros config world d Hw Hf r. subst r.
  unfold main, load_warm_start. rewrite Hw. simpl. rewrite Hf. simpl.
  repeat split.
Qed.

Lemma C8_witness :
  let d := {| dir_exists := true; files := [CheckpointFile 5 0.5%float] |} in
  let r := main (warm_config 5) (small_world (fun _ => 0.5%float)) d in
  snd r = Some (FileNotFoundError (WarmStartFile 5))
  /\ fst r = initial_state d
  /\ existsb is_step_event (log (fst r)) = false
  /\ epochs_executed (fst r) = 0.
Proof.
  apply (C8_warm_start_missing_checkpoint
           (warm_config 5) (small_world (fun _ => 0.5%float))
           {| dir_exists := true; files := [CheckpointFile 5 0.5%float] |});
    reflexivity.
Defined.

(** ** The reduction of test mode *)

Lemma predict_refines {T : Type} `{TensorArith T} (output : list T) :
  length output = 10%nat ->
  view_10_1 output = Some output
  /\ predict output = (weighted_mean output, weighted_std output).
Proof.
  intros Hl. unfold view_10_1. rewrite Hl.
  do 10 (destruct output as [|? output]; [discriminate|]).
  destruct output; [|discriminate].
  split; reflexivity.
Qed.

Lemma test_loop_maps (outputs : list (list float32)) :
  forall s,
    Forall (fun output => length output = 10%nat) outputs ->
    test_loop outputs s
    = (set_preds (mean_preds s ++ map weighted_mean outputs)
                 (std_preds s ++ map weighted_std outputs) s,
       None).
Proof.
  induction outputs as [|output rest IH]; intros s Hall; cbn [test_loop map].
  - rewrite !app_nil_r. destruct s; reflexivity.
  - inversion Hall as [|? ? Hl Hrest]; subst.
    destruct (predict_refines output Hl) as [Hv Hp].
    rewrite Hv. cbv beta iota. rewrite Hp. rewrite (IH _ Hrest).
    unfold set_preds. cbn [mean_preds std_preds count init_val_loss
                           train_losses val_losses batch_losses fs log].
    rewrite <- !app_assoc. reflexivity.
Qed.

(** C9: for a sample of 10 scores, test mode computes the mean
    [sum of i * score[i]] and the deviation
    [sqrt (sum of score[i] * (i - mean)^2)], [i] from 1 to 10, the second sum
    using the finished mean; over a test set the predictions are these two
    functions mapped over the samples, each from its own scores alone; and
    the scores [1, 0, ..., 0] give mean 1 and deviation 0, in double and in
    single precision. *)
Theorem C9_test_mode_reduction :
  (forall (T : Type) (A : TensorArith T) (output : list T),
      length output = 10%nat ->
      predict output = (weighted_mean output, weighted_std output))
  /\ (forall (world : World) (s : State),
         Forall (fun output => length output = 10%nat) (test_loader world) ->
         let r := testing world s in
         snd r = None
         /\ mean_preds (fst r) = map weighted_mean (test_loader world)
         /\ std_preds (fst r) = map weighted_std (test_loader world))
  /\ predict [1; 0; 0; 0; 0; 0; 0; 0; 0; 0]%float = (1%float, 0%float)
  /\ predict first_rank_scores = (F32.of_int 1, F32.zero).
Proof.
  split; [|split; [|split]].
  - intros T A output Hl. apply (predict_refines output Hl).
  - intros world s Hall. unfold testing.
    rewrite (test_loop_maps (test_loader world) _ Hall). simpl. auto.
  - vm_compute. reflexivity.
  - vm_compute. reflexivity.
Qed.

Lemma C9_witness :
  predict [1; 0; 0; 0; 0; 0; 0; 0; 0; 0]%float
  = (weighted_mean [1; 0; 0; 0; 0; 0; 0; 0; 0; 0]%float,
     weighted_std [1; 0; 0; 0; 0; 0; 0; 0; 0; 0]%float).
Proof.
  apply (proj1 C9_test_mode_reduction float float_arith
               [1; 0; 0; 0; 0; 0; 0; 0; 0; 0]%float).
  reflexivity.
Defined.

(** * Further properties of the training loop and of [main] *)

(** ** The best loss and the recorded validation losses *)

Lemma fold_running_min_snoc (l : list float) (x best : float) :
  fold_left running_min (l ++ [x]) best
  = running_min (fold_left running_min l best) x.
Proof. rewrite fold_left_app. reflexivity. Qed.

Section Minimum.

Variable config : Config.
Variable world : World.

Lemma train_step_tracks (epoch i : Z) (loss : float) (s : State) :
  tracks_minimum s ->
  tracks_minimum (fst (train_step config world epoch i loss s)).
Proof.
  unfold tracks_minimum, train_step. intros Hs.
  destruct ((i + 1) mod 4 =? 0); [|exact Hs].
  match goal with
  | |- context [step_validation _ _ ?e ?j ?t] =>
      destruct (step_validation_spec config world e j t)
        as (_ & _ & _ & H4 & H5 & _)
  end.
  rewrite H4, H5, fold_running_min_snoc. simpl. rewrite Hs. reflexivity.
Qed.

Lemma step_loop_tracks (epoch : Z) (batches : list (Z * float)) :
  forall s,
    tracks_minimum s ->
    tracks_minimum (fst (step_loop config world epoch batches s)).
Proof.
  induction batches as [|[i loss] rest IH]; intros s Hs; simpl; [exact Hs|].
  pose proof (train_step_tracks epoch i loss s Hs) as Ht.
  destruct (train_step_spec config world epoch i loss s) as (H0 & _).
  destruct (train_step config world epoch i loss s) as [s' [e|]];
    simpl in *; [discriminate|].
  apply IH. exact Ht.
Qed.

Lemma epoch_body_tracks (epoch : Z) (s : State) :
  tracks_minimum s ->
  snd (epoch_body config world epoch s) = Continue
  \/ snd (epoch_body config world epoch s) = Break ->
  tracks_minimum (fst (epoch_body config world epoch s)).
Proof.
  intros Hs. unfold epoch_body.
  assert (Hb : tracks_minimum (set_batch_losses [] s)) by exact Hs.
  pose proof (step_loop_tracks epoch
                (Py.enumerate 0 (train_loader world epoch)) _ Hb) as H1.
  destruct (step_loop_spec config world epoch
              (Py.enumerate 0 (train_loader world epoch))
              (set_batch_losses [] s)) as (H0 & _).
  destruct (step_loop config world epoch _ (set_batch_losses [] s))
    as [s1 [e|]]; simpl in *; [discriminate|].
  destruct (epoch_end_spec config world epoch s1)
    as (G1 & _ & G3 & _ & G5 & _).
  destruct (epoch_end config world epoch s1) as [[s2 avg] [e|]]; simpl in *.
  - intros [H|H]; discriminate.
  - intros _. subst avg.
    destruct (early_stopping_spec config (epoch_val_loss config world epoch) s2)
      as (_ & _ & F3 & _ & F5 & _).
    unfold tracks_minimum in *.
    rewrite F3, F5, G3, G5, fold_running_min_snoc, H1. reflexivity.
Qed.

Lemma epoch_loop_tracks (range : list Z) :
  forall s,
    tracks_minimum s ->
    snd (epoch_loop config world range s) = Continue
    \/ snd (epoch_loop config world range s) = Break ->
    tracks_minimum (fst (epoch_loop config world range s)).
Proof.
  induction range as [|epoch rest IH]; intros s Hs; simpl; [auto|].
  pose proof (epoch_body_tracks epoch s Hs) as Hb.
  destruct (epoch_body config world epoch s) as [s' fl]; simpl in *.
  destruct fl; simpl.
  - intros H. apply IH; auto.
  - intros _. apply Hb. right; reflexivity.
  - intros [H|H]; discriminate.
Qed.

End Minimum.

(** X1: when the training loop ends without an exception, by exhausting its
    range or by the break, the best loss [init_val_loss] is the running
    minimum, from [+infinity], of all the validation losses recorded in
    [val_losses], those of the step validations and those of the ends of
    epochs, in the order they were recorded. *)
Theorem best_loss_is_minimum_of_recorded_losses :
  forall (config : Config) (world : World) (s : State),
    snd (training config world s) = Continue
    \/ snd (training config world s) = Break ->
    tracks_minimum (fst (training config world s)).
Proof.
  intros config world s. unfold training.
  assert (H0 : tracks_minimum (training_init s)) by reflexivity.
  pose proof (epoch_loop_tracks config world
                (Py.range (warm_start_epoch config) (epochs config))
                (training_init s) H0) as H.
  destruct (epoch_loop config world _ (training_init s)) as [s' fl].
  simpl in H. destruct fl; simpl; intros Hf.
  - apply H. left; reflexivity.
  - apply H. right; reflexivity.
  - destruct Hf; discriminate.
Qed.

Lemma best_loss_is_minimum_witness :
  tracks_minimum
    (fst (training (example_config 3 0 5)
                   (large_world step_losses first_half_then_worse)
                   (initial_state empty_dir))).
Proof.
  apply (best_loss_is_minimum_of_recorded_losses
           (example_config 3 0 5)
           (large_world step_losses first_half_then_worse)
           (initial_state empty_dir)).
  left. vm_compute. reflexivity.
Defined.

(** ** NaN and the early-stopping policy *)

Lemma SFeqb_self (x : spec_float) :
  SFeqb x x = match x with S754_nan => false | _ => true end.
Proof.
  unfold SFeqb.
  destruct x as [s|s| |s m e]; simpl; try destruct s; try reflexivity;
    rewrite Z.compare_refl; change (Pos.compare_cont Eq) with Pos.compare;
    rewrite Pos.compare_refl; reflexivity.
Qed.

Lemma SFcompare_antisym (x y : spec_float) :
  SFcompare y x = match SFcompare x y with
                  | Some c => Some (CompOpp c)
                  | None => None
                  end.
Proof.
  destruct x as [sx|sx| |sx mx ex], y as [sy|sy| |sy my ey]; simpl;
    try destruct sx; try destruct sy; try reflexivity;
    change (Pos.compare_cont Eq) with Pos.compare;
    rewrite (Z.compare_antisym ex ey), (Pos.compare_antisym mx my);
    destruct (ex ?= ey), (mx ?= my)%positive; reflexivity.
Qed.

Lemma SFcompare_none (x y : spec_float) :
  SFcompare x y = None -> x = S754_nan \/ y = S754_nan.
Proof.
  destruct x as [sx|sx| |sx mx ex], y as [sy|sy| |sy my ey]; simpl;
    try destruct sx; try destruct sy; intros H; try discriminate; auto.
Qed.

Lemma is_nan_spec (x : float) :
  is_nan x = match Prim2SF x with S754_nan => true | _ => false end.
Proof.
  unfold is_nan. rewrite eqb_spec, SFeqb_self.
  destruct (Prim2SF x); reflexivity.
Qed.

Lemma lt_left_not_nan (x y : float) : Py.lt x y = true -> is_nan x = false.
Proof.
  unfold Py.lt. rewrite ltb_spec, is_nan_spec. unfold SFltb.
  destruct (Prim2SF x); simpl; try reflexivity. discriminate.
Qed.

Lemma running_min_not_nan (best avg : float) :
  is_nan best = false -> is_nan (running_min best avg) = false.
Proof.
  unfold running_min. intros Hb.
  destruct (Py.lt avg best) eqn:Hlt; [|exact Hb].
  exact (lt_left_not_nan avg best Hlt).
Qed.

(** Against a best loss that is not NaN, a loss compares neither way exactly
    when it is NaN. *)
Lemma verdict_unordered_iff_nan (avg best : float) :
  is_nan best = false ->
  (verdict avg best = Unordered <-> is_nan avg = true).
Proof.
  unfold verdict, Py.lt, Py.ge.
  rewrite ltb_spec, leb_spec, !is_nan_spec. unfold SFltb, SFleb.
  rewrite (SFcompare_antisym (Prim2SF avg) (Prim2SF best)).
  intros Hb.
  destruct (SFcompare (Prim2SF avg) (Prim2SF best)) as [c|] eqn:Hc.
  - assert (Ha : match Prim2SF avg with S754_nan => true | _ => false end
                 = false).
    { destruct (Prim2SF avg); try reflexivity. simpl in Hc. discriminate. }
    rewrite Ha. destruct c; simpl; split; discriminate.
  - destruct (SFcompare_none _ _ Hc) as [Ha|Ha]; rewrite Ha in *.
    + split; reflexivity.
    + discriminate.
Qed.

Lemma best_after_steps_not_nan (config : Config) (world : World) (epoch : Z)
      (batches : list (Z * float)) :
  forall best,
    is_nan best = false ->
    is_nan (best_after_steps config world epoch batches best) = false.
Proof.
  unfold best_after_steps.
  induction batches as [|[i loss] rest IH]; intros best Hb; simpl; [exact Hb|].
  apply IH. unfold step_best. destruct (_ =? _); [|exact Hb].
  apply running_min_not_nan. exact Hb.
Qed.

Lemma epoch_body_not_nan (config : Config) (world : World) (epoch : Z)
      (s : State) :
  is_nan (init_val_loss s) = false ->
  is_nan (init_val_loss (fst (epoch_body config world epoch s))) = false.
Proof.
  intros Hs.
  destruct (epoch_body_spec config world epoch s) as (_ & B).
  pose proof (best_after_steps_not_nan config world epoch
                (Py.enumerate 0 (train_loader world epoch)) _ Hs) as Hb.
  fold (best_before_epoch_end config world epoch (init_val_loss s)) in Hb.
  destruct (dir_exists (fs (after_steps config world epoch s))).
  - destruct B as (_ & _ & B3 & _). rewrite B3.
    apply running_min_not_nan. exact Hb.
  - destruct B as (_ & _ & _ & B4). rewrite B4. exact Hb.
Qed.

Lemma epoch_loop_not_nan (config : Config) (world : World) (range : list Z) :
  forall s,
    is_nan (init_val_loss s) = false ->
    is_nan (init_val_loss (fst (epoch_loop config world range s))) = false.
Proof.
  induction range as [|epoch rest IH]; intros s Hs; simpl; [exact Hs|].
  pose proof (epoch_body_not_nan config world epoch s Hs) as Hb.
  destruct (epoch_body config world epoch s) as [s' fl]; simpl in *.
  destruct fl; simpl; auto.
Qed.

Lemma verdicts_unordered (config : Config) (world : World) (range : list Z) :
  forall best,
    is_nan best = false ->
    Forall2 (fun epoch v =>
               v = Unordered
               <-> is_nan (epoch_val_loss config world epoch) = true)
            range (verdicts config world range best).
Proof.
  induction range as [|epoch rest IH]; intros best Hb; simpl; constructor.
  - apply verdict_unordered_iff_nan.
    apply best_after_steps_not_nan. exact Hb.
  - apply IH. apply running_min_not_nan.
    apply best_after_steps_not_nan. exact Hb.
Qed.

(** X2: the best loss is never NaN, however the training loop ends, since
    only a loss that compares below the best replaces it; hence, among the
    epoch-end checks of a run, those that compare neither way with the best
    so far are exactly those whose validation loss is NaN. *)
Theorem best_loss_never_nan :
  forall (config : Config) (world : World) (s : State),
    is_nan (init_val_loss (fst (training config world s))) = false
    /\ Forall2 (fun epoch v =>
                  v = Unordered
                  <-> is_nan (epoch_val_loss config world epoch) = true)
               (Py.range (warm_start_epoch config) (epochs config))
               (verdicts config world
                  (Py.range (warm_start_epoch config) (epochs config))
                  PrimFloat.infinity).
Proof.
  intros config world s. split.
  - unfold training.
    pose proof (epoch_loop_not_nan config world
                  (Py.range (warm_start_epoch config) (epochs config))
                  (training_init s) eq_refl) as H.
    destruct (epoch_loop config world _ (training_init s)) as [s' fl].
    simpl in H. destruct fl; exact H.
  - apply verdicts_unordered. reflexivity.
Qed.

(** X3: against a best loss that is not NaN, the early-stopping policy of
    lines 132-145 does nothing at all (no reset, no increment, no message,
    no break) exactly when the validation loss of the epoch is NaN. *)
Theorem nan_loss_skips_early_stopping :
  forall (config : Config) (avg : float) (s : State),
    is_nan (init_val_loss s) = false ->
    (early_stopping config avg s = (s, Continue) <-> is_nan avg = true).
Proof.
  intros config avg s Hb.
  pose proof (verdict_unordered_iff_nan avg (init_val_loss s) Hb) as Hv.
  unfold verdict in Hv. unfold early_stopping, ensure_ckpt_dir.
  destruct (Py.lt avg (init_val_loss s)).
  - split.
    + intros H. apply (f_equal (fun r => length (log (fst r)))) in H.
      simpl in H. destruct (dir_exists (fs s)); simpl in H; lia.
    + intros H. apply Hv in H. discriminate.
  - destruct (Py.ge avg (init_val_loss s)).
    + split.
      * intros H. apply (f_equal (fun r => count (fst r))) in H.
        simpl in H. destruct (_ =? _); simpl in H; lia.
      * intros H. apply Hv in H. discriminate.
    + split; [intros _; apply Hv; reflexivity|reflexivity].
Qed.

Lemma nan_loss_skips_early_stopping_witness :
  early_stopping (example_config 3 0 1) PrimFloat.nan
                 (training_init (initial_state empty_dir))
  = (training_init (initial_state empty_dir), Continue)
  <-> is_nan PrimFloat.nan = true.
Proof.
  apply (nan_loss_skips_early_stopping
           (example_config 3 0 1) PrimFloat.nan
           (training_init (initial_state empty_dir))).
  reflexivity.
Defined.

(** ** What [train_losses] and [val_losses] hold *)

Lemma enumerate_snd {A : Type} (l : list A) :
  forall start, map snd (Py.enumerate start l) = l.
Proof.
  induction l as [|x l IH]; intros start; simpl; [reflexivity|].
  rewrite IH. reflexivity.
Qed.

Section Records.

Variable config : Config.
Variable world : World.

Lemma train_step_records (epoch i : Z) (loss : float) (s : State) :
  let r := train_step config world epoch i loss s in
  batch_losses (fst r) = batch_losses s ++ [loss]
  /\ val_losses (fst r) = val_losses s ++ step_record config world epoch i.
Proof.
  unfold train_step, step_record, step_validation.
  destruct ((i + 1) mod 4 =? 0); simpl.
  - destruct (Py.lt _ (init_val_loss s)); simpl.
    + unfold ensure_ckpt_dir, torch_save; simpl.
      destruct (dir_exists (fs s)) eqn:Hd; simpl; rewrite ?Hd; simpl; auto.
    + auto.
  - rewrite app_nil_r. auto.
Qed.

Lemma step_loop_records (epoch : Z) (batches : list (Z * float)) :
  forall s,
    let r := step_loop config world epoch batches s in
    batch_losses (fst r) = batch_losses s ++ map snd batches
    /\ val_losses (fst r)
       = val_losses s
         ++ map (fun i => avg_val_loss config world
                            (step_val_loader world epoch i))
                (filter (fun i => (i + 1) mod 4 =? 0) (map fst batches)).
Proof.
  induction batches as [|[i loss] rest IH]; intros s; simpl.
  - rewrite !app_nil_r. auto.
  - destruct (train_step_records epoch i loss s) as [H1 H2].
    destruct (train_step_spec config world epoch i loss s) as (H0 & _).
    destruct (train_step config world epoch i loss s) as [s' [e|]];
      simpl in *; [discriminate|].
    destruct (IH s') as [I1 I2]. rewrite I1, I2, H1, H2.
    unfold step_record. rewrite <- !app_assoc.
    destruct ((i + 1) mod 4 =? 0); simpl; auto.
Qed.

Lemma epoch_body_records (epoch : Z) (s : State) :
  let r := epoch_body config world epoch s in
  train_losses (fst r) = train_losses s ++ [epoch_train_loss config world epoch]
  /\ val_losses (fst r) = val_losses s ++ epoch_validations config world epoch.
Proof.
  unfold epoch_body, epoch_validations, validation_steps, epoch_train_loss.
  destruct (step_loop_records epoch (Py.enumerate 0 (train_loader world epoch))
                              (set_batch_losses [] s)) as [R1 R2].
  destruct (step_loop_spec config world epoch
              (Py.enumerate 0 (train_loader world epoch))
              (set_batch_losses [] s)) as (H0 & _ & H3 & _).
  destruct (step_loop config world epoch _ (set_batch_losses [] s))
    as [s1 [e|]]; simpl in *; [discriminate|].
  rewrite enumerate_snd in R1.
  destruct (epoch_end_spec config world epoch s1)
    as (G1 & _ & _ & G4 & G5 & _).
  rewrite R1 in G4. rewrite R2, H3 in *. clear R1 R2 H3.
  destruct (epoch_end config world epoch s1) as [[s2 avg] [e|]]; simpl in *.
  - rewrite G4, G5, <- app_assoc. auto.
  - destruct (early_stopping_spec config avg s2) as (_ & _ & _ & F4 & F5 & _).
    rewrite F4, F5, G4, G5, <- app_assoc. auto.
Qed.

Lemma epoch_loop_records (range : list Z) :
  forall s,
    let r := epoch_loop config world range s in
    exists n,
      (n <= length range)%nat
      /\ train_losses (fst r)
         = train_losses s
           ++ map (epoch_train_loss config world) (firstn n range)
      /\ val_losses (fst r)
         = val_losses s
           ++ flat_map (epoch_validations config world) (firstn n range).
Proof.
  induction range as [|epoch rest IH]; intros s; simpl.
  - exists O. simpl. rewrite !app_nil_r. auto.
  - destruct (epoch_body_records epoch s) as [B1 B2].
    destruct (epoch_body config world epoch s) as [s' fl]; simpl in *.
    destruct fl.
    + destruct (IH s') as (n & N1 & N2 & N3). exists (S n). simpl.
      rewrite N2, N3, B1, B2, <- !app_assoc. simpl.
      repeat split; auto. lia.
    + exists 1%nat. simpl. rewrite B1, B2, app_nil_r.
      repeat split; auto. lia.
    + exists 1%nat. simpl. rewrite B1, B2, app_nil_r.
      repeat split; auto. lia.
Qed.

End Records.

(** X4: however the training loop ends, [train_losses] holds, for the epochs
    run in order, the sum of the batch losses of that epoch alone over
    [len(trainset) // train_batch_size + 1], and [val_losses] holds, epoch
    after epoch, the losses of the step validations of the epoch followed by
    the loss of its end: the two lists are not aligned. *)
Theorem recorded_losses_by_epoch :
  forall (config : Config) (world : World) (s : State),
    let s' := fst (training config world s) in
    train_losses s'
    = map (epoch_train_loss config world) (epochs_run config s')
    /\ val_losses s'
       = flat_map (epoch_validations config world) (epochs_run config s').
Proof.
  intros config world s. unfold training, epochs_run.
  destruct (epoch_loop_records config world
              (Py.range (warm_start_epoch config) (epochs config))
              (training_init s)) as (n & N1 & N2 & N3).
  destruct (epoch_loop config world _ (training_init s)) as [s1 fl].
  simpl in N2, N3.
  assert (Hs : train_losses (fst (match fl with
                                  | Raise e => (s1, Raise e)
                                  | _ => (emit PrintCompleted s1, fl)
                                  end)) = train_losses s1
               /\ val_losses (fst (match fl with
                                   | Raise e => (s1, Raise e)
                                   | _ => (emit PrintCompleted s1, fl)
                                   end)) = val_losses s1).
  { destruct fl; split; reflexivity. }
  destruct Hs as [-> ->].
  assert (Hn : length (train_losses s1) = n).
  { rewrite N2, length_map, length_firstn. lia. }
  rewrite Hn. auto.
Qed.

Lemma validation_steps_count (world : World) (epoch : Z) :
  Z.of_nat (length (validation_steps world epoch))
  = Z.of_nat (length (train_loader world epoch)) / 4.
Proof.
  unfold validation_steps.
  assert (H : forall (l : list float) start,
             0 <= start ->
             Z.of_nat (length (filter (fun i => (i + 1) mod 4 =? 0)
                                      (map fst (Py.enumerate start l))))
             = (start + Z.of_nat (length l)) / 4 - start / 4).
  { induction l as [|x l IH]; intros start Hs.
    - cbn [Py.enumerate map filter length]. rewrite Z.add_0_r. lia.
    - cbn [Py.enumerate map filter fst].
      destruct (Z.eqb_spec ((start + 1) mod 4) 0) as [Hm|Hm];
        cbn [length]; rewrite ?Nat2Z.inj_succ, (IH (start + 1)) by lia;
        replace (start + 1 + Z.of_nat (length l))
          with (start + Z.succ (Z.of_nat (length l))) by lia;
        assert (Hd := Z.div_mod start 4 ltac:(lia));
        assert (Hd1 := Z.div_mod (start + 1) 4 ltac:(lia));
        assert (Hb := Z.mod_pos_bound start 4 ltac:(lia));
        assert (Hb1 := Z.mod_pos_bound (start + 1) 4 ltac:(lia));
        lia. }
  rewrite (H _ 0) by lia. rewrite Z.add_0_l. change (0 / 4) with 0. lia.
Qed.

(** X5: an epoch of [n] training steps appends [n // 4 + 1] losses to
    [val_losses], one for each fourth step and one for its end, whether the
    epoch ends in an exception or not. *)
Theorem validations_per_epoch :
  forall (config : Config) (world : World) (epoch : Z) (s : State),
    Z.of_nat (length (val_losses (fst (epoch_body config world epoch s))))
    = Z.of_nat (length (val_losses s))
      + Z.of_nat (length (train_loader world epoch)) / 4 + 1.
Proof.
  intros config world epoch s.
  destruct (epoch_body_records config world epoch s) as [_ H].
  rewrite H. unfold epoch_validations.
  rewrite !length_app, length_map. cbn [length].
  pose proof (validation_steps_count world epoch). lia.
Qed.

(** ** The loaders and the divisors *)

Lemma loader_len_vs_floor (m b : Z) :
  0 <= m -> 0 < b ->
  m / b + 1 = loader_len m b + (if m mod b =? 0 then 1 else 0).
Proof.
  intros Hm Hb. unfold loader_len.
  pose proof (Z.div_mod m b ltac:(lia)) as Hdm.
  pose proof (Z.mod_pos_bound m b Hb) as Hr.
  destruct (Z.eqb_spec (m mod b) 0) as [H0|H0].
  - assert (Hq : (m + b - 1) / b = m / b).
    { symmetry. apply (Z.div_unique (m + b - 1) b (m / b) (b - 1)); lia. }
    lia.
  - assert (Hq : (m + b - 1) / b = m / b + 1).
    { symmetry.
      apply (Z.div_unique (m + b - 1) b (m / b + 1) (m mod b - 1)); lia. }
    lia.
Qed.

(** X6: when the loaders yield [ceil(len / batch_size)] batches, the
    divisor of the mean training loss and the divisor of the mean validation
    loss are the number of batch losses summed, except when the batch size
    divides the size of the set: then they are one more, and the mean is
    below the arithmetic mean of the batch losses. *)
Theorem divisors_against_batches :
  forall (config : Config) (world : World),
    loaders_consistent config world ->
    0 <= len_trainset world -> 0 < train_batch_size config ->
    0 <= len_valset world -> 0 < val_batch_size config ->
    (forall epoch,
        train_denominator config world
        = Z.of_nat (length (train_loader world epoch))
          + (if len_trainset world mod train_batch_size config =? 0
             then 1 else 0))
    /\ (forall epoch i,
           val_denominator config world
           = Z.of_nat (length (step_val_loader world epoch i))
             + (if len_valset world mod val_batch_size config =? 0
                then 1 else 0))
    /\ (forall epoch,
           val_denominator config world
           = Z.of_nat (length (epoch_val_loader world epoch))
             + (if len_valset world mod val_batch_size config =? 0
                then 1 else 0)).
Proof.
  intros config world (C1 & C2 & C3) Ht Hb Hv Hc.
  unfold train_denominator, val_denominator.
  repeat split; intros.
  - rewrite C1. apply loader_len_vs_floor; assumption.
  - rewrite C2. apply loader_len_vs_floor; assumption.
  - rewrite C3. apply loader_len_vs_floor; assumption.
Qed.

Lemma divisors_against_batches_witness :
  (forall epoch,
      train_denominator (val_config 30) (val_world 90 [2; 2; 2]%float)
      = Z.of_nat (length (train_loader (val_world 90 [2; 2; 2]%float) epoch))
        + (if 300 mod 156 =? 0 then 1 else 0))
  /\ (forall epoch i,
         val_denominator (val_config 30) (val_world 90 [2; 2; 2]%float)
         = Z.of_nat (length (step_val_loader (val_world 90 [2; 2; 2]%float)
                                             epoch i))
           + (if 90 mod 30 =? 0 then 1 else 0))
  /\ (forall epoch,
         val_denominator (val_config 30) (val_world 90 [2; 2; 2]%float)
         = Z.of_nat (length (epoch_val_loader (val_world 90 [2; 2; 2]%float)
                                              epoch))
           + (if 90 mod 30 =? 0 then 1 else 0)).
Proof.
  apply (divisors_against_batches (val_config 30)
                                  (val_world 90 [2; 2; 2]%float)).
  - repeat split.
  - simpl; lia.
  - simpl; lia.
  - simpl; lia.
  - simpl; lia.
Defined.

(** ** The global step of the batch scalars *)

Lemma steps_below_weaken (b b' : Z) (s : State) :
  b <= b' -> steps_below b s -> steps_below b' s.
Proof.
  intros Hb [H1 H2]. split; [exact H1|].
  eapply Forall_impl; [|exact H2]. simpl. intros g Hg. lia.
Qed.

Lemma range_ascending (a b : Z) : ascending_from a (Py.range a b).
Proof.
  unfold Py.range.
  assert (H : forall n start,
             ascending_from (a + Z.of_nat start)
                            (map (fun k => a + Z.of_nat k) (seq start n))).
  { induction n as [|n IH]; intros start; simpl; [exact I|].
    split; [lia|].
    replace (a + Z.of_nat start + 1) with (a + Z.of_nat (S start)) by lia.
    apply IH. }
  specialize (H (Z.to_nat (b - a)) O). simpl in H.
  rewrite Z.add_0_r in H. exact H.
Qed.

Lemma StronglySorted_rev (l : list Z) :
  StronglySorted (fun later earlier => earlier < later) l ->
  StronglySorted Z.lt (rev l).
Proof.
  induction l as [|a l IH]; intros H; simpl; [constructor|].
  inversion H as [|? ? Hl Ha]; subst. specialize (IH Hl).
  assert (Hall : Forall (fun x => x < a) (rev l)).
  { apply Forall_forall. intros x Hx. apply in_rev in Hx.
    rewrite Forall_forall in Ha. apply Ha. exact Hx. }
  clear - IH Hall.
  induction (rev l) as [|x r IHr]; simpl.
  - constructor; constructor.
  - inversion IH as [|? ? Hr Hx]; subst.
    inversion Hall as [|? ? Hxa Hra]; subst.
    constructor; [apply IHr; assumption|].
    apply Forall_app. split; [exact Hx|]. constructor; [exact Hxa|constructor].
Qed.

Section GlobalSteps.

Variable config : Config.
Variable world : World.

Lemma train_step_scalar (epoch i : Z) (loss : float) (s : State) :
  scalar_steps (log (fst (train_step config world epoch i loss s)))
  = (i + epoch * train_denominator config world) :: scalar_steps (log s).
Proof.
  unfold train_step, step_validation.
  destruct ((i + 1) mod 4 =? 0); simpl; [|reflexivity].
  destruct (Py.lt _ (init_val_loss s)); simpl; [|reflexivity].
  unfold ensure_ckpt_dir, torch_save; simpl.
  destruct (dir_exists (fs s)) eqn:Hd; simpl; rewrite ?Hd; reflexivity.
Qed.

Lemma step_loop_scalar (epoch : Z) (l : list float) :
  forall start s,
    steps_below (start + epoch * train_denominator config world) s ->
    steps_below (start + Z.of_nat (length l)
                 + epoch * train_denominator config world)
                (fst (step_loop config world epoch (Py.enumerate start l) s)).
Proof.
  induction l as [|x l IH]; intros start s Hs; cbn [Py.enumerate step_loop].
  - cbn [length fst]. rewrite Z.add_0_r. exact Hs.
  - pose proof (train_step_scalar epoch start x s) as Hl.
    destruct (train_step_spec config world epoch start x s) as (H0 & _).
    destruct (train_step config world epoch start x s) as [s' [e|]];
      simpl in Hl, H0; [discriminate|].
    cbn [length]. rewrite Nat2Z.inj_succ.
    replace (start + Z.succ (Z.of_nat (length l)))
      with (start + 1 + Z.of_nat (length l)) by lia.
    apply IH. destruct Hs as [S1 S2]. unfold steps_below. rewrite Hl. split.
    + constructor; [exact S1|exact S2].
    + constructor; [lia|]. eapply Forall_impl; [|exact S2].
      simpl. intros g Hg. lia.
Qed.

Lemma epoch_body_scalar (epoch : Z) (s : State) :
  scalar_steps (log (fst (epoch_body config world epoch s)))
  = scalar_steps (log (after_steps config world epoch s)).
Proof.
  unfold epoch_body, after_steps.
  destruct (step_loop_spec config world epoch
              (Py.enumerate 0 (train_loader world epoch))
              (set_batch_losses [] s)) as (H0 & _).
  destruct (step_loop config world epoch _ (set_batch_losses [] s))
    as [s1 [e|]]; simpl in *; [discriminate|].
  unfold epoch_end, torch_save; simpl.
  destruct (dir_exists (fs s1)); simpl; [|reflexivity].
  unfold early_stopping, ensure_ckpt_dir; simpl.
  destruct (Py.lt _ (init_val_loss s1)); simpl; [reflexivity|].
  destruct (Py.ge _ (init_val_loss s1)); simpl; [|reflexivity].
  destruct (_ =? _); reflexivity.
Qed.

Hypothesis batches_within_divisor :
  forall epoch,
    Z.of_nat (length (train_loader world epoch))
    <= train_denominator config world.

Lemma epoch_body_steps_below (epoch : Z) (s : State) :
  steps_below (epoch * train_denominator config world) s ->
  steps_below ((epoch + 1) * train_denominator config world)
              (fst (epoch_body config world epoch s)).
Proof.
  intros Hs. unfold steps_below. rewrite epoch_body_scalar.
  pose proof (step_loop_scalar epoch (train_loader world epoch) 0
                               (set_batch_losses [] s) Hs) as H.
  fold (after_steps config world epoch s) in H.
  eapply steps_below_weaken; [|exact H].
  specialize (batches_within_divisor epoch). lia.
Qed.

Lemma epoch_loop_steps_below (range : list Z) :
  forall e0 s,
    ascending_from e0 range ->
    steps_below (e0 * train_denominator config world) s ->
    exists bound,
      steps_below bound (fst (epoch_loop config world range s)).
Proof.
  assert (HD : 0 <= train_denominator config world).
  { specialize (batches_within_divisor 0). lia. }
  induction range as [|epoch rest IH]; intros e0 s Ha Hs; simpl.
  - eexists; exact Hs.
  - destruct Ha as [Ha1 Ha2].
    assert (Hs' : steps_below (epoch * train_denominator config world) s).
    { eapply steps_below_weaken; [|exact Hs]. nia. }
    pose proof (epoch_body_steps_below epoch s Hs') as Hb.
    destruct (epoch_body config world epoch s) as [s' fl]; simpl in *.
    destruct fl; simpl.
    + apply (IH (epoch + 1) s' Ha2 Hb).
    + eexists; exact Hb.
    + eexists; exact Hb.
Qed.

End GlobalSteps.

(** X7: when the training loader yields [ceil(len / batch_size)] batches,
    the global steps [i + epoch * (len(trainset) // train_batch_size + 1)]
    under which the batch losses go to the metrics are strictly increasing
    in time over the whole run: no two batch losses share a step, within an
    epoch or across epochs, however the loop ends. *)
Theorem batch_scalar_steps_increase :
  forall (config : Config) (world : World) (s : State),
    loaders_consistent config world ->
    0 <= len_trainset world -> 0 < train_batch_size config ->
    scalar_steps (log s) = [] ->
    StronglySorted Z.lt
      (rev (scalar_steps (log (fst (training config world s))))).
Proof.
  intros config world s (C1 & _) Ht Hb Hl.
  assert (Hn : forall epoch,
             Z.of_nat (length (train_loader world epoch))
             <= train_denominator config world).
  { intros epoch. rewrite C1. unfold train_denominator.
    pose proof (loader_len_vs_floor _ _ Ht Hb).
    destruct (_ =? _); lia. }
  assert (H0 : steps_below
                 (warm_start_epoch config * train_denominator config world)
                 (training_init s)).
  { unfold steps_below. simpl. rewrite Hl. split; constructor. }
  destruct (epoch_loop_steps_below config world Hn
              (Py.range (warm_start_epoch config) (epochs config))
              (warm_start_epoch config) (training_init s)
              (range_ascending _ _) H0) as (bound & Hs & _).
  apply StronglySorted_rev. unfold training.
  destruct (epoch_loop config world _ (training_init s)) as [s' fl].
  simpl in Hs. destruct fl; exact Hs.
Qed.

Lemma batch_scalar_steps_increase_witness :
  StronglySorted Z.lt
    (rev (scalar_steps
            (log (fst (training (example_config 3 0 5)
                                (large_world step_losses first_half_then_worse)
                                (initial_state empty_dir)))))).
Proof.
  apply (batch_scalar_steps_increase
           (example_config 3 0 5)
           (large_world step_losses first_half_then_worse)
           (initial_state empty_dir)).
  - repeat split.
  - simpl; lia.
  - simpl; lia.
  - reflexivity.
Defined.

(** ** The step counter on the console *)

Section PrintedSteps.

Variable config : Config.
Variable world : World.

Lemma train_step_printed (epoch i : Z) (loss : float) (s : State) :
  0 <= i -> i + 1 <= train_denominator config world ->
  Forall printed_step_in_range (log s) ->
  Forall printed_step_in_range
         (log (fst (train_step config world epoch i loss s))).
Proof.
  intros Hi Hd Hs. unfold train_step, step_validation.
  destruct ((i + 1) mod 4 =? 0); simpl.
  - destruct (Py.lt _ (init_val_loss s)); simpl.
    + unfold ensure_ckpt_dir, torch_save; simpl.
      destruct (dir_exists (fs s)) eqn:Hx; simpl; rewrite ?Hx; simpl;
        repeat (constructor; simpl; try lia; try exact I); exact Hs.
    + repeat (constructor; simpl; try lia; try exact I); exact Hs.
  - repeat (constructor; simpl; try lia; try exact I); exact Hs.
Qed.

Lemma step_loop_printed (epoch : Z) (l : list float) :
  forall start s,
    0 <= start ->
    start + Z.of_nat (length l) <= train_denominator config world ->
    Forall printed_step_in_range (log s) ->
    Forall printed_step_in_range
           (log (fst (step_loop config world epoch (Py.enumerate start l) s))).
Proof.
  induction l as [|x l IH]; intros start s H0 Hd Hs;
    cbn [Py.enumerate step_loop]; [exact Hs|].
  cbn [length] in Hd. rewrite Nat2Z.inj_succ in Hd.
  pose proof (train_step_printed epoch start x s H0 ltac:(lia) Hs) as Ht.
  destruct (train_step_spec config world epoch start x s) as (Hn & _).
  destruct (train_step config world epoch start x s) as [s' [e|]];
    simpl in Ht, Hn; [discriminate|].
  apply IH; [lia|lia|exact Ht].
Qed.

Lemma epoch_body_printed (epoch : Z) (s : State) :
  Forall printed_step_in_range (log (after_steps config world epoch s)) ->
  Forall printed_step_in_range (log (fst (epoch_body config world epoch s))).
Proof.
  unfold epoch_body, after_steps.
  destruct (step_loop_spec config world epoch
              (Py.enumerate 0 (train_loader world epoch))
              (set_batch_losses [] s)) as (H0 & _).
  destruct (step_loop config world epoch _ (set_batch_losses [] s))
    as [s1 [e|]]; simpl in *; [discriminate|].
  intros Hs. unfold epoch_end, torch_save; simpl.
  destruct (dir_exists (fs s1)); simpl.
  - unfold early_stopping, ensure_ckpt_dir; simpl.
    destruct (Py.lt _ (init_val_loss s1)); simpl.
    + destruct (dir_exists (fs s1)); simpl;
        repeat (constructor; simpl; try exact I); exact Hs.
    + destruct (Py.ge _ (init_val_loss s1)); simpl.
      * destruct (_ =? _); simpl;
          repeat (constructor; simpl; try exact I); exact Hs.
      * repeat (constructor; simpl; try exact I); exact Hs.
  - repeat (constructor; simpl; try exact I); exact Hs.
Qed.

Hypothesis batches_within_divisor :
  forall epoch,
    Z.of_nat (length (train_loader world epoch))
    <= train_denominator config world.

Lemma epoch_loop_printed (range : list Z) :
  forall s,
    Forall printed_step_in_range (log s) ->
    Forall printed_step_in_range
           (log (fst (epoch_loop config world range s))).
Proof.
  induction range as [|epoch rest IH]; intros s Hs; simpl; [exact Hs|].
  assert (Hb : Forall printed_step_in_range
                      (log (fst (epoch_body config world epoch s)))).
  { apply epoch_body_printed. unfold after_steps.
    apply step_loop_printed;
      [lia|specialize (batches_within_divisor epoch); lia|exact Hs]. }
  destruct (epoch_body config world epoch s) as [s' fl]; simpl in *.
  destruct fl; simpl; auto.
Qed.

End PrintedSteps.

(** X8: when the training loader yields [ceil(len / batch_size)] batches,
    every line ['Step: %d/%d'] of the console shows a step between 1 and the
    total [len(trainset) // train_batch_size + 1] that it prints next to
    it. *)
Theorem printed_steps_within_total :
  forall (config : Config) (world : World) (s : State),
    loaders_consistent config world ->
    0 <= len_trainset world -> 0 < train_batch_size config ->
    Forall printed_step_in_range (log s) ->
    Forall printed_step_in_range (log (fst (training config world s))).
Proof.
  intros config world s (C1 & _) Ht Hb Hl.
  assert (Hn : forall epoch,
             Z.of_nat (length (train_loader world epoch))
             <= train_denominator config world).
  { intros epoch. rewrite C1. unfold train_denominator.
    pose proof (loader_len_vs_floor _ _ Ht Hb).
    destruct (_ =? _); lia. }
  pose proof (epoch_loop_printed config world Hn
                (Py.range (warm_start_epoch config) (epochs config))
                (training_init s) Hl) as H.
  unfold training.
  destruct (epoch_loop config world _ (training_init s)) as [s' fl].
  simpl in H. destruct fl; simpl; try exact H;
    (constructor; [exact I|exact H]).
Qed.

Lemma printed_steps_within_total_witness :
  Forall printed_step_in_range
         (log (fst (training (example_config 3 0 5)
                             (large_world step_losses first_half_then_worse)
                             (initial_state empty_dir)))).
Proof.
  apply (printed_steps_within_total
           (example_config 3 0 5)
           (large_world step_losses first_half_then_worse)
           (initial_state empty_dir)).
  - repeat split.
  - simpl; lia.
  - simpl; lia.
  - constructor.
Defined.

(** ** The files of the checkpoint directory *)

Lemma checkpoints_added_refl (l : list FileName) : checkpoints_added l l.
Proof. exists []. split; reflexivity. Qed.

Lemma checkpoints_added_trans (l1 l2 l3 : list FileName) :
  checkpoints_added l1 l2 -> checkpoints_added l2 l3 ->
  checkpoints_added l1 l3.
Proof.
  intros (a & -> & Ha) (b & -> & Hb). exists (b ++ a).
  rewrite app_assoc, forallb_app, Ha, Hb. split; reflexivity.
Qed.

Lemma checkpoints_added_warm (old new : list FileName) (N : Z) :
  checkpoints_added old new ->
  existsb (is_warm_start_file N) new = existsb (is_warm_start_file N) old.
Proof.
  intros (added & -> & Ha). rewrite existsb_app.
  replace (existsb (is_warm_start_file N) added) with false; [reflexivity|].
  symmetry. induction added as [|f added IH]; [reflexivity|].
  simpl in Ha. apply andb_prop in Ha. destruct Ha as [Hf Ha].
  simpl. rewrite (IH Ha). destruct f; [discriminate|reflexivity].
Qed.

Section Files.

Variable config : Config.
Variable world : World.

Lemma train_step_files (epoch i : Z) (loss : float) (s : State) :
  checkpoints_added (files (fs s))
                    (files (fs (fst (train_step config world epoch i loss s)))).
Proof.
  unfold train_step, step_validation.
  destruct ((i + 1) mod 4 =? 0); simpl; [|apply checkpoints_added_refl].
  destruct (Py.lt _ (init_val_loss s)); simpl; [|apply checkpoints_added_refl].
  unfold ensure_ckpt_dir, torch_save; simpl.
  destruct (dir_exists (fs s)) eqn:Hd; simpl; rewrite ?Hd; simpl;
    eexists [_]; split; reflexivity.
Qed.

Lemma step_loop_files (epoch : Z) (batches : list (Z * float)) :
  forall s,
    checkpoints_added
      (files (fs s))
      (files (fs (fst (step_loop config world epoch batches s)))).
Proof.
  induction batches as [|[i loss] rest IH]; intros s; simpl.
  - apply checkpoints_added_refl.
  - pose proof (train_step_files epoch i loss s) as Ht.
    destruct (train_step_spec config world epoch i loss s) as (H0 & _).
    destruct (train_step config world epoch i loss s) as [s' [e|]];
      simpl in *; [discriminate|].
    eapply checkpoints_added_trans; [exact Ht|apply IH].
Qed.

Lemma epoch_body_files (epoch : Z) (s : State) :
  checkpoints_added (files (fs s))
                    (files (fs (fst (epoch_body config world epoch s)))).
Proof.
  destruct (epoch_body_spec config world epoch s) as (_ & B).
  pose proof (step_loop_files epoch (Py.enumerate 0 (train_loader world epoch))
                              (set_batch_losses [] s)) as Hs.
  fold (after_steps config world epoch s) in Hs. simpl in Hs.
  eapply checkpoints_added_trans; [exact Hs|].
  destruct (dir_exists (fs (after_steps config world epoch s))).
  - destruct B as (_ & _ & _ & _ & B5 & _). rewrite B5.
    eexists [_]; split; reflexivity.
  - destruct B as (_ & B2 & _). rewrite B2. apply checkpoints_added_refl.
Qed.

Lemma epoch_loop_files (range : list Z) :
  forall s,
    checkpoints_added (files (fs s))
                      (files (fs (fst (epoch_loop config world range s)))).
Proof.
  induction range as [|epoch rest IH]; intros s; simpl.
  - apply checkpoints_added_refl.
  - pose proof (epoch_body_files epoch s) as Hb.
    destruct (epoch_body config world epoch s) as [s' fl]; simpl in *.
    destruct fl; simpl; auto.
    eapply checkpoints_added_trans; [exact Hb|apply IH].
Qed.

Lemma training_files (s : State) :
  checkpoints_added (files (fs s))
                    (files (fs (fst (training config world s)))).
Proof.
  unfold training.
  pose proof (epoch_loop_files
                (Py.range (warm_start_epoch config) (epochs config))
                (training_init s)) as H.
  destruct (epoch_loop config world _ (training_init s)) as [s' fl].
  simpl in H. destruct fl; exact H.
Qed.

End Files.

Lemma test_loop_fs (outputs : list (list float32)) :
  forall s, fs (fst (test_loop outputs s)) = fs s.
Proof.
  induction outputs as [|output rest IH]; intros s; cbn [test_loop];
    [reflexivity|].
  destruct (view_10_1 output); [|reflexivity].
  destruct (predict l). rewrite IH. reflexivity.
Qed.

(** X9: whatever the options, the world and the outcome, [main] removes no
    file of the checkpoint directory and adds only files named
    ['epoch-%d-%f.pth']; it never writes a file ['epoch-%d.pth'], the only
    name a warm start loads: such a file is among the files after a run
    exactly when it was among them before. *)
Theorem main_only_adds_checkpoints :
  forall (config : Config) (world : World) (d : FS),
    checkpoints_added (files d) (files (fs (fst (main config world d))))
    /\ forall N,
        existsb (is_warm_start_file N) (files (fs (fst (main config world d))))
        = existsb (is_warm_start_file N) (files d).
Proof.
  intros config world d.
  assert (Htest : forall s0,
             checkpoints_added (files d) (files (fs s0)) ->
             checkpoints_added
               (files d)
               (files (fs (fst (if test config
                                then if test_loader_raises config
                                     then (s0, Some ValueError)
                                     else testing world s0
                                else (s0, None)))))).
  { intros s0 H0. destruct (test config); [|exact H0].
    destruct (test_loader_raises config); [exact H0|].
    unfold testing. rewrite test_loop_fs. exact H0. }
  assert (Hrest : forall s0,
             checkpoints_added (files d) (files (fs s0)) ->
             checkpoints_added
               (files d)
               (files (fs (fst
                  (match (if train config
                          then if training_loaders_raise config world
                               then (s0, Raise ValueError)
                               else training config world s0
                          else (s0, Continue)) with
                   | (s1, Raise e) => (s1, Some e)
                   | (s1, _) =>
                       if test config
                       then if test_loader_raises config
                            then (s1, Some ValueError)
                            else testing world s1
                       else (s1, None)
                   end))))).
  { intros s0 H0. destruct (train config).
    - destruct (training_loaders_raise config world); [exact H0|].
      pose proof (training_files config world s0) as Ht.
      destruct (training config world s0) as [s' fl]; simpl in Ht.
      assert (Hs : checkpoints_added (files d) (files (fs s')))
        by (eapply checkpoints_added_trans; eauto).
      destruct fl; [apply Htest, Hs|apply Htest, Hs|exact Hs].
    - apply Htest, H0. }
  assert (H : checkpoints_added (files d)
                                (files (fs (fst (main config world d))))).
  { unfold main, load_warm_start.
    destruct (warm_start config); [destruct (file_exists_warm _ _)|].
    - apply Hrest. apply checkpoints_added_refl.
    - apply checkpoints_added_refl.
    - apply Hrest. apply checkpoints_added_refl. }
  split; [exact H|].
  intros N. apply checkpoints_added_warm. exact H.
Qed.

(** ** Test mode: a batch that is not 10 scores *)

(** X10: test mode stops at the first batch whose output does not hold 10
    elements, with the error of [view(10, 1)]; the predictions of the
    batches before it are kept, those after it are never computed. *)
Theorem test_loop_stops_at_bad_batch :
  forall (good : list (list float32)) (bad : list float32)
         (rest : list (list float32)) (s : State),
    Forall (fun output => length output = 10%nat) good ->
    length bad <> 10%nat ->
    test_loop (good ++ bad :: rest) s
    = (set_preds (mean_preds s ++ map weighted_mean good)
                 (std_preds s ++ map weighted_std good) s,
       Some (RuntimeError_view (length bad))).
Proof.
  induction good as [|output good IH]; intros bad rest s Hall Hbad.
  - cbn [app test_loop map]. unfold view_10_1.
    destruct (Nat.eqb_spec (length bad) 10); [contradiction|].
    rewrite !app_nil_r. destruct s; reflexivity.
  - inversion Hall as [|? ? Hl Hgood]; subst.
    cbn [app test_loop map].
    destruct (predict_refines output Hl) as [Hv Hp].
    rewrite Hv. cbv beta iota. rewrite Hp. rewrite (IH bad rest _ Hgood Hbad).
    unfold set_preds. cbn [mean_preds std_preds count init_val_loss
                           train_losses val_losses batch_losses fs log].
    rewrite <- !app_assoc. reflexivity.
Qed.

Lemma test_loop_stops_at_bad_batch_witness :
  test_loop ([uniform_scores] ++ [F32.of_int 1; F32.zero] :: [uniform_scores])
            (initial_state empty_dir)
  = (set_preds (mean_preds (initial_state empty_dir)
                ++ map weighted_mean [uniform_scores])
               (std_preds (initial_state empty_dir)
                ++ map weighted_std [uniform_scores])
               (initial_state empty_dir),
     Some (RuntimeError_view (length [F32.of_int 1; F32.zero]))).
Proof.
  apply (test_loop_stops_at_bad_batch
           [uniform_scores] [F32.of_int 1; F32.zero] [uniform_scores]
           (initial_state empty_dir)).
  - repeat constructor.
  - simpl. lia.
Defined.

(** ** [main]: training followed by test mode *)

Lemma training_never_raises (config : Config) (world : World) (s : State) :
  dir_exists (fs s) = true ->
  snd (training config world s) = Continue
  \/ snd (training config world s) = Break.
Proof.
  intros Hd. destruct (training_patience config world s Hd) as (H & _).
  rewrite H. destruct (snd (patience_run _ _ _)); auto.
Qed.

Lemma training_loaders_accepted (config : Config) (world : World) :
  0 < len_trainset world -> 0 < train_batch_size config ->
  0 < val_batch_size config -> 0 <= num_workers config ->
  training_loaders_raise config world = false.
Proof.
  intros Hl Ht Hv Hn. unfold training_loaders_raise, DataLoader_raises.
  destruct (Z.ltb_spec (num_workers config) 0); [lia|].
  destruct (Z.leb_spec (len_trainset world) 0); [lia|].
  destruct (Z.leb_spec (train_batch_size config) 0); [lia|].
  destruct (Z.leb_spec (val_batch_size config) 0); [lia|].
  reflexivity.
Qed.

Lemma test_loader_accepted (config : Config) :
  0 < test_batch_size config -> 0 <= num_workers config ->
  test_loader_raises config = false.
Proof.
  intros Ht Hn. unfold test_loader_raises, DataLoader_raises.
  destruct (Z.ltb_spec (num_workers config) 0); [lia|].
  destruct (Z.leb_spec (test_batch_size config) 0); [lia|].
  reflexivity.
Qed.

(** X11: with both modes on, no warm start, loaders that can be built (a
    training set that is not empty, positive batch sizes, a number of
    workers that is not negative), the checkpoint directory in place and 10
    scores per test batch, [main] ends without an exception: test mode runs
    after the training loop, also when the loop was left by the early stop,
    on the state the loop ended in, and adds the predictions of all the
    test batches. *)
Theorem main_trains_then_tests :
  forall (config : Config) (world : World) (d : FS),
    train config = true -> test config = true ->
    warm_start config = false ->
    0 < len_trainset world ->
    0 < train_batch_size config -> 0 < val_batch_size config ->
    0 < test_batch_size config -> 0 <= num_workers config ->
    dir_exists d = true ->
    Forall (fun output => length output = 10%nat) (test_loader world) ->
    main config world d
    = (set_preds (map weighted_mean (test_loader world))
                 (map weighted_std (test_loader world))
                 (fst (training config world (initial_state d))),
       None).
Proof.
  intros config world d Htr Hte Hw Hlen Hbt Hbv Hbe Hnw Hd Hall.
  unfold main, load_warm_start. rewrite Hw, Htr, Hte.
  rewrite (training_loaders_accepted config world Hlen Hbt Hbv Hnw).
  rewrite (test_loader_accepted config Hbe Hnw).
  pose proof (training_never_raises config world (initial_state d) Hd) as Hf.
  destruct (training config world (initial_state d)) as [s' fl].
  simpl in Hf.
  assert (Ht : testing world s'
               = (set_preds (map weighted_mean (test_loader world))
                            (map weighted_std (test_loader world)) s', None)).
  { unfold testing. rewrite (test_loop_maps _ _ Hall). reflexivity. }
  destruct Hf as [-> | ->]; simpl; exact Ht.
Qed.

Lemma main_trains_then_tests_witness :
  main both_modes_config test_world empty_dir
  = (set_preds (map weighted_mean (test_loader test_world))
               (map weighted_std (test_loader test_world))
               (fst (training both_modes_config test_world
                              (initial_state empty_dir))),
     None).
Proof.
  apply (main_trains_then_tests both_modes_config test_world empty_dir).
  - reflexivity.
  - reflexivity.
  - reflexivity.
  - simpl; lia.
  - simpl; lia.
  - simpl; lia.
  - simpl; lia.
  - simpl; lia.
  - reflexivity.
  - repeat constructor.
Defined.

(** ** An empty range of epochs *)




(** ** The bounds of the patience counter *)

Lemma epoch_loop_count (config : Config) (world : World) (range : list Z) :
  1 <= early_stopping_patience config ->
  forall s,
    0 <= count s < early_stopping_patience config ->
    let r := epoch_loop config world range s in
    (snd r = Break -> count (fst r) = early_stopping_patience config)
    /\ (snd r <> Break ->
        0 <= count (fst r) < early_stopping_patience config).
Proof.
  intros HP. induction range as [|epoch rest IH]; intros s Hc; simpl.
  - split; [discriminate|auto].
  - destruct (epoch_body_spec config world epoch s) as (_ & B).
    destruct (epoch_body config world epoch s) as [s' fl]; simpl in *.
    destruct (dir_exists (fs (after_steps config world epoch s))).
    + destruct B as (B1 & B2 & _). subst fl.
      destruct (verdict _ _); simpl in *.
      * apply IH. lia.
      * destruct (Z.eqb_spec (count s + 1) (early_stopping_patience config));
          simpl.
        -- split; [intros _; lia|congruence].
        -- apply IH. lia.
      * apply IH. lia.
    + destruct B as (B1 & _ & B3 & _). subst fl. simpl.
      split; [discriminate|intros _; lia].
Qed.

(** X13: with a patience of at least 1, however the training loop ends, the
    counter [count] ends between 0 and the patience, and it ends equal to
    the patience exactly when the loop was left by the break. *)
Theorem counter_within_patience :
  forall (config : Config) (world : World) (s : State),
    1 <= early_stopping_patience config ->
    let r := training config world s in
    0 <= count (fst r) <= early_stopping_patience config
    /\ (snd r = Break <-> count (fst r) = early_stopping_patience config).
Proof.
  intros config world s HP. unfold training.
  pose proof (epoch_loop_count config world
                (Py.range (warm_start_epoch config) (epochs config))
                HP (training_init s)) as H.
  simpl in H. specialize (H ltac:(lia)).
  destruct (epoch_loop config world _ (training_init s)) as [s' fl].
  simpl in H. destruct H as [H1 H2].
  destruct fl; simpl.
  - specialize (H2 ltac:(discriminate)). split; [lia|].
    split; [discriminate|lia].
  - specialize (H1 eq_refl). split; [lia|]. split; auto.
  - specialize (H2 ltac:(discriminate)). split; [lia|].
    split; [discriminate|lia].
Qed.

Lemma counter_within_patience_witness :
  let r := training (example_config 5 0 1)
                    (small_world first_half_then_worse)
                    (initial_state empty_dir) in
  0 <= count (fst r) <= 1
  /\ (snd r = Break <-> count (fst r) = 1).
Proof.
  apply (counter_within_patience
           (example_config 5 0 1) (small_world first_half_then_worse)
           (initial_state empty_dir)).
  simpl. lia.
Defined.

(** ** When the save at the end of an epoch fails *)

Lemma lt_irrefl (x : float) : Py.lt x x = false.
Proof.
  unfold Py.lt. rewrite ltb_spec. unfold SFltb.
  pose proof (SFcompare_antisym (Prim2SF x) (Prim2SF x)) as H.
  destruct (SFcompare (Prim2SF x) (Prim2SF x)) as [[| |]|];
    try reflexivity. discriminate.
Qed.

Lemma lt_then_below (a b c : float) :
  Py.lt a b = true -> non_increasing a c -> c <> b.
Proof.
  intros Hab Hc Heq. subst c.
  pose proof (lt_irrefl b) as Hb.
  destruct Hc as [Hc | Hc].
  - rewrite Hc in Hb. congruence.
  - rewrite (lt_trans _ _ _ Hc Hab) in Hb. discriminate.
Qed.

Section SaveFailure.

Variable config : Config.
Variable world : World.

Lemma train_step_dir (epoch i : Z) (loss : float) (s : State) :
  dir_exists (fs (fst (train_step config world epoch i loss s)))
  = dir_exists (fs s)
    || (((i + 1) mod 4 =? 0)
        && Py.lt (avg_val_loss config world (step_val_loader world epoch i))
                 (init_val_loss s)).
Proof.
  unfold train_step, step_validation.
  destruct ((i + 1) mod 4 =? 0); simpl; [|rewrite orb_false_r; reflexivity].
  destruct (Py.lt _ (init_val_loss s)); simpl;
    [|rewrite orb_false_r; reflexivity].
  unfold ensure_ckpt_dir, torch_save; simpl.
  destruct (dir_exists (fs s)) eqn:Hd; simpl; rewrite ?Hd; reflexivity.
Qed.

Lemma step_loop_dir (epoch : Z) (batches : list (Z * float)) :
  forall s,
    dir_exists (fs (fst (step_loop config world epoch batches s))) = false
    <-> dir_exists (fs s) = false
        /\ best_after_steps config world epoch batches (init_val_loss s)
           = init_val_loss s.
Proof.
  induction batches as [|[i loss] rest IH]; intros s; simpl.
  - unfold best_after_steps; simpl. tauto.
  - pose proof (train_step_dir epoch i loss s) as Hd.
    destruct (train_step_spec config world epoch i loss s)
      as (H0 & _ & _ & H4 & _).
    destruct (train_step config world epoch i loss s) as [s' [e|]];
      simpl in *; [discriminate|].
    rewrite (IH s'), Hd, H4. clear IH Hd H4 H0.
    unfold best_after_steps; simpl. unfold step_best.
    fold (best_after_steps config world epoch rest).
    destruct ((i + 1) mod 4 =? 0); simpl.
    + unfold running_min.
      destruct (Py.lt _ (init_val_loss s)) eqn:Hlt; simpl.
      * rewrite orb_true_r. split; [intros [H _]; discriminate|].
        intros [_ H]. exfalso.
        exact (lt_then_below _ _ _ Hlt
                 (best_after_steps_non_increasing config world epoch rest _) H).
      * rewrite orb_false_r. tauto.
    + rewrite orb_false_r. tauto.
Qed.

End SaveFailure.

(** X14: an epoch ends in the [FileNotFoundError] of the save of line 130
    exactly when the checkpoint directory is missing at its start and none of
    its step validations improved on the best loss (each of them would have
    created the directory); no other exception comes out of an epoch. *)
Theorem epoch_raises_iff_no_directory_and_no_improvement :
  forall (config : Config) (world : World) (epoch : Z) (s : State),
    (snd (epoch_body config world epoch s)
     = Raise (FileNotFoundError
                (CheckpointFile (epoch + 1)
                                (epoch_val_loss config world epoch)))
     <-> dir_exists (fs s) = false
         /\ best_before_epoch_end config world epoch (init_val_loss s)
            = init_val_loss s)
    /\ (forall e,
           snd (epoch_body config world epoch s) = Raise e ->
           e = FileNotFoundError
                 (CheckpointFile (epoch + 1)
                                 (epoch_val_loss config world epoch))).
Proof.
  intros config world epoch s.
  destruct (epoch_body_spec config world epoch s) as (_ & B).
  pose proof (step_loop_dir config world epoch
                (Py.enumerate 0 (train_loader world epoch))
                (set_batch_losses [] s)) as Hd.
  fold (after_steps config world epoch s) in Hd. simpl in Hd.
  fold (best_before_epoch_end config world epoch (init_val_loss s)) in Hd.
  destruct (dir_exists (fs (after_steps config world epoch s))).
  - destruct B as (B1 & _). rewrite B1. split.
    + split.
      * unfold next_flow. destruct (verdict _ _); try discriminate.
        destruct (_ =? _); discriminate.
      * intros H. apply Hd in H. discriminate.
    + intros e. unfold next_flow. destruct (verdict _ _); try discriminate.
      destruct (_ =? _); discriminate.
  - destruct B as (B1 & _). rewrite B1. split.
    + split; [intros _; apply Hd; reflexivity|reflexivity].
    + intros e [= <-]. reflexivity.
Qed.

(** ** The checkpoint and the metrics of every epoch run *)

Lemma patience_run_positive (P c : Z) (vs : list Verdict) :
  vs <> [] -> (1 <= fst (patience_run P c vs))%nat.
Proof.
  destruct vs as [|v vs]; [congruence|]. intros _. simpl.
  destruct v.
  - destruct (patience_run P 0 vs); simpl; lia.
  - destruct (c + 1 =? P); simpl; [lia|].
    destruct (patience_run P (c + 1) vs); simpl; lia.
  - destruct (patience_run P c vs); simpl; lia.
Qed.

Section EpochMetrics.

Variable config : Config.
Variable world : World.

Lemma epoch_body_logs_pair (epoch : Z) (s : State) :
  exists es,
    log (fst (epoch_body config world epoch s))
    = es ++ AddScalars (epoch_train_loss config world epoch)
                       (epoch_val_loss config world epoch) (epoch + 1)
            :: PrintValLoss (epoch + 1) (epoch_val_loss config world epoch)
            :: PrintTrainLoss (epoch + 1) (epoch_train_loss config world epoch)
            :: log (after_steps config world epoch s).
Proof.
  unfold epoch_body, after_steps, epoch_train_loss.
  destruct (step_loop_records config world epoch
              (Py.enumerate 0 (train_loader world epoch))
              (set_batch_losses [] s)) as [R1 _].
  destruct (step_loop_spec config world epoch
              (Py.enumerate 0 (train_loader world epoch))
              (set_batch_losses [] s)) as (H0 & _).
  destruct (step_loop config world epoch _ (set_batch_losses [] s))
    as [s1 [e|]]; simpl in *; [discriminate|].
  rewrite enumerate_snd in R1.
  unfold epoch_end, torch_save, epoch_val_loss; simpl. rewrite R1.
  destruct (dir_exists (fs s1)); simpl; [|exists []; reflexivity].
  unfold early_stopping, ensure_ckpt_dir; simpl.
  destruct (Py.lt _ (init_val_loss s1)); simpl.
  - exists [PrintDone; PrintSaving]. reflexivity.
  - destruct (Py.ge _ (init_val_loss s1)); simpl.
    + destruct (_ =? _); simpl; [eexists [_]|exists []]; reflexivity.
    + exists []; reflexivity.
Qed.

Lemma epoch_body_log_extends (epoch : Z) (s : State) :
  extends (log s) (log (fst (epoch_body config world epoch s))).
Proof.
  destruct (epoch_body_logs_pair epoch s) as [es Hes].
  destruct (step_loop_extends config world epoch
              (Py.enumerate 0 (train_loader world epoch))
              (set_batch_losses [] s)) as [_ [l Hl]].
  fold (after_steps config world epoch s) in Hl. simpl in Hl.
  rewrite Hes, Hl. eexists (es ++ _ :: _ :: _ :: l).
  rewrite <- app_assoc. reflexivity.
Qed.

Lemma epoch_loop_logs_pairs (range : list Z) :
  forall s,
    let r := epoch_loop config world range s in
    extends (log s) (log (fst r))
    /\ exists n,
        length (train_losses (fst r)) = (length (train_losses s) + n)%nat
        /\ forall epoch,
            In epoch (firstn n range) ->
            In (AddScalars (epoch_train_loss config world epoch)
                           (epoch_val_loss config world epoch) (epoch + 1))
               (log (fst r)).
Proof.
  induction range as [|epoch rest IH]; intros s; simpl.
  - split; [apply extends_refl|]. exists O. simpl. split; [lia|tauto].
  - pose proof (epoch_body_log_extends epoch s) as He.
    destruct (epoch_body_logs_pair epoch s) as [es Hes].
    destruct (epoch_body_spec config world epoch s) as (L & _).
    assert (Hin : In (AddScalars (epoch_train_loss config world epoch)
                                 (epoch_val_loss config world epoch)
                                 (epoch + 1))
                     (log (fst (epoch_body config world epoch s)))).
    { rewrite Hes. apply in_or_app. right. left. reflexivity. }
    clear Hes.
    destruct (epoch_body config world epoch s) as [s' fl]; simpl in *.
    destruct fl.
    + destruct (IH s') as (I1 & n & I2 & I3). split.
      * eapply extends_trans; eauto.
      * exists (S n). split; [lia|]. simpl. intros e [<- | H].
        -- eapply extends_In; eauto.
        -- apply I3. exact H.
    + cbn [fst]. split; [exact He|]. exists 1%nat. split; [lia|].
      simpl. intros e [<- | []]. exact Hin.
    + cbn [fst]. split; [exact He|]. exists 1%nat. split; [lia|].
      simpl. intros e0 [<- | []]. exact Hin.
Qed.

End EpochMetrics.

(** X15: started with the checkpoint directory in place, the training loop
    never raises and runs at least one epoch when its range is not empty;
    every epoch it has run, improved or not, has left in the directory a
    checkpoint under its number counted from 1 and its validation loss, and
    in the metrics, under the same number, the pair of its mean training
    loss (the sum of its own batch losses over
    [len(trainset) // train_batch_size + 1]) and its validation loss. *)
Theorem epoch_checkpoints_with_directory :
  forall (config : Config) (world : World) (s : State),
    dir_exists (fs s) = true ->
    let r := training config world s in
    (snd r = Continue \/ snd r = Break)
    /\ (warm_start_epoch config < epochs config ->
        1 <= epochs_executed (fst r))
    /\ forall epoch,
        In epoch (epochs_run config (fst r)) ->
        saved (epoch + 1) (epoch_val_loss config world epoch) (fst r)
        /\ In (AddScalars (epoch_train_loss config world epoch)
                          (epoch_val_loss config world epoch) (epoch + 1))
              (log (fst r)).
Proof.
  intros config world s Hd r.
  split; [apply training_never_raises; exact Hd|]. split.
  - intros HWE.
    destruct (training_patience config world s Hd) as (_ & H2 & _).
    fold r in H2. rewrite H2.
    pose proof (patience_run_positive (early_stopping_patience config) 0
                  (verdicts config world
                     (Py.range (warm_start_epoch config) (epochs config))
                     PrimFloat.infinity)) as Hp.
    assert (Hne : verdicts config world
                    (Py.range (warm_start_epoch config) (epochs config))
                    PrimFloat.infinity <> []).
    { intros Hnil. apply (f_equal (@length Verdict)) in Hnil.
      rewrite verdicts_length in Hnil.
      pose proof (range_length (warm_start_epoch config) (epochs config)).
      simpl in Hnil. lia. }
    specialize (Hp Hne). lia.
  - subst r. unfold training, epochs_run.
    destruct (epoch_loop_saved config world
                (Py.range (warm_start_epoch config) (epochs config))
                (training_init s) Hd)
      as (n & N1 & N2 & _ & _ & N5 & N6).
    destruct (epoch_loop_logs_pairs config world
                (Py.range (warm_start_epoch config) (epochs config))
                (training_init s)) as (_ & m & M2 & M3).
    destruct (epoch_loop config world _ (training_init s)) as [s' fl].
    simpl in N2, N5, N6, M2, M3.
    assert (Hm : m = n) by lia. subst m.
    assert (Hfl : (match fl with
                   | Raise e => (s', Raise e)
                   | _ => (emit PrintCompleted s', fl)
                   end) = (emit PrintCompleted s', fl)).
    { destruct N5 as [-> | ->]; reflexivity. }
    rewrite Hfl. simpl. rewrite N2.
    intros epoch He. split.
    + apply (N6 epoch He).
    + right. apply M3. rewrite N2. exact He.
Qed.

Lemma epoch_checkpoints_with_directory_witness :
  let config := example_config 5 0 1 in
  let world := small_world first_half_then_worse in
  let r := training config world (initial_state empty_dir) in
  (snd r = Continue \/ snd r = Break)
  /\ (warm_start_epoch config < epochs config ->
      1 <= epochs_executed (fst r))
  /\ forall epoch,
      In epoch (epochs_run config (fst r)) ->
      saved (epoch + 1) (epoch_val_loss config world epoch) (fst r)
      /\ In (AddScalars (epoch_train_loss config world epoch)
                        (epoch_val_loss config world epoch) (epoch + 1))
            (log (fst r)).
Proof.
  apply (epoch_checkpoints_with_directory
           (example_config 5 0 1) (small_world first_half_then_worse)
           (initial_state empty_dir)).
  reflexivity.
Defined.
